(** * Gun-Ollama relay: backend discovery and adapter layer (src/server.js)

    A shallow embedding of the decision logic of [src/server.js]: the
    endpoint prober, the CLI capability probe, the CLI text handling and the
    route handlers that dispatch on the resolved backend.

    JavaScript strings are sequences of UTF-16 code units; every character
    the code tests for (white space, line feed, double quote, dollar) lies
    in the Basic Multilingual Plane, so classifying code units one by one is
    exact.  Everything the program asks of the outside (fetch, child
    processes, the Ollama SDK, listening on a port) is answered by a [World]
    that sees the history of earlier requests; the history is the trace the
    effectful functions thread. *)

From Stdlib Require Import List NArith ZArith Bool Ascii String Lia.
Import ListNotations.

Set Warnings "-register-all".
Local Open Scope string_scope.
Local Open Scope N_scope.
Local Open Scope list_scope.

(* ===================================================================== *)
(** ** JavaScript strings *)
(* ===================================================================== *)

Module JsString.

(** A code unit and a string; notations, so that [N] and [list N] are what
    every lemma sees. *)
Abbreviation char16 := N (only parsing).
Abbreviation jstring := (list N) (only parsing).

(** Literals of this file are written as Rocq strings (UTF-8 bytes) and
    decoded to code units. *)
Fixpoint bytes_of (s : string) : list N :=
  match s with
  | EmptyString => []
  | String a r => N_of_ascii a :: bytes_of r
  end.

Fixpoint utf16_of_utf8 (bs : list N) : jstring :=
  match bs with
  | [] => []
  | b0 :: t0 =>
      if b0 <? 128 then b0 :: utf16_of_utf8 t0
      else
        match t0 with
        | [] => []
        | b1 :: t1 =>
            if b0 <? 224 then ((b0 - 192) * 64 + (b1 - 128)) :: utf16_of_utf8 t1
            else
              match t1 with
              | [] => []
              | b2 :: t2 =>
                  if b0 <? 240
                  then ((b0 - 224) * 4096 + (b1 - 128) * 64 + (b2 - 128))
                         :: utf16_of_utf8 t2
                  else
                    match t2 with
                    | [] => []
                    | b3 :: t3 =>
                        let cp := (b0 - 240) * 262144 + (b1 - 128) * 4096
                                  + (b2 - 128) * 64 + (b3 - 128) in
                        (55296 + (cp - 65536) / 1024)
                          :: (56320 + (cp - 65536) mod 1024)
                          :: utf16_of_utf8 t3
                    end
              end
        end
  end.

Definition js (s : string) : jstring := utf16_of_utf8 (bytes_of s).

Definition LF : char16 := 10.
Definition DQUOTE : char16 := 34.
Definition DOLLAR : char16 := 36.
Definition BACKSLASH : char16 := 92.
Definition BACKTICK : char16 := 96.

(** White space and line terminators of ECMAScript: the class [\s] of a
    regular expression and the characters [String.prototype.trim] strips. *)
Definition is_space (c : char16) : bool :=
  ((9 <=? c) && (c <=? 13))
  || (c =? 32) || (c =? 160) || (c =? 5760)
  || ((8192 <=? c) && (c <=? 8202))
  || (c =? 8232) || (c =? 8233) || (c =? 8239) || (c =? 8287)
  || (c =? 12288) || (c =? 65279).

Fixpoint trimStart (s : jstring) : jstring :=
  match s with
  | [] => []
  | c :: t => if is_space c then trimStart t else s
  end.

Definition trimEnd (s : jstring) : jstring := rev (trimStart (rev s)).

(** [s.trim()] *)
Definition trim (s : jstring) : jstring := trimEnd (trimStart s).

(** [s.split(sep)] for a separator of one code unit: [field] is the part
    of the current piece read so far. *)
Fixpoint split_at (sep : char16) (field s : jstring) : list jstring :=
  match s with
  | [] => [field]
  | c :: t =>
      if c =? sep then field :: split_at sep [] t
      else split_at sep (field ++ [c]) t
  end.

Definition split_char (sep : char16) (s : jstring) : list jstring :=
  split_at sep [] s.

(** [s.split(/\s+/)]: the pieces between maximal runs of white space.  A
    leading run gives an empty first piece, a trailing run an empty last
    one, and the empty string gives one empty piece.  [in_run] says that the
    previous code unit belonged to a run. *)
Fixpoint split_ws_at (in_run : bool) (field s : jstring) : list jstring :=
  match s with
  | [] => [field]
  | c :: t =>
      if is_space c then
        if in_run then split_ws_at true [] t
        else field :: split_ws_at true [] t
      else split_ws_at false (field ++ [c]) t
  end.

Definition split_ws (s : jstring) : list jstring := split_ws_at false [] s.

(** [s.replace(/c/g, rep)] for a pattern of one literal code unit and a
    replacement text that holds no substitution pattern ([$] directly
    before the end of the text, as in ['\\$'], stands for itself). *)
Definition replace_all (c : char16) (rep : jstring) (s : jstring) : jstring :=
  flat_map (fun x => if x =? c then rep else [x]) s.

(** Truthiness of a string value. *)
Definition truthy (s : jstring) : bool :=
  match s with [] => false | _ :: _ => true end.

(** [a || b] on strings, [undefined] being [None]. *)
Definition or_else (a : option jstring) (b : jstring) : jstring :=
  match a with
  | Some (c :: t) => c :: t
  | _ => b
  end.

End JsString.
Import JsString.

Fixpoint eqb_str (a b : jstring) : bool :=
  match a, b with
  | [], [] => true
  | x :: a', y :: b' => (x =? y) && eqb_str a' b'
  | _, _ => false
  end.

(** [l[i]] for an index that may be negative: [None] is [undefined]. *)
Definition item {A : Type} (l : list A) (i : Z) : option A :=
  if (i <? 0)%Z then None else nth_error l (Z.to_nat i).

(* ===================================================================== *)
(** ** Values, errors and the outside world *)
(* ===================================================================== *)

(** The JavaScript values that travel through the handlers. *)
Inductive Value :=
| VUndefined
| VNull
| VBool (b : bool)
| VNum (n : N)
| VStr (s : jstring)
| VArr (items : list Value)
| VObj (fields : list (string * Value)).

(** Where an exception came from; [message] is its [error.message]. *)
Inductive ExecFailure :=
| NonZeroExit (code : positive)   (* the child exited with this status *)
| TimedOut                        (* killed when [timeout] ran out *)
| BufferExceeded                  (* more output than [maxBuffer] *)
| SpawnError.                     (* the command could not be started *)

Inductive Cause :=
| TypeErr
| FetchErr
| ParseErr
| SdkErr
| ExecErr (f : ExecFailure).

Record JsError := { cause : Cause; message : jstring }.

Record ExecOptions :=
  { timeout : N; maxBuffer : option N; shell : option jstring }.

(** A chat message; [content] is a string, as the chat API has it. *)
Record Message := { role : jstring; content : jstring }.

Inductive SdkCall :=
| SdkList
| SdkChat (model : jstring) (messages : list Message) (stream : bool) (options : Value)
| SdkGenerate (model prompt : jstring) (stream : bool) (options : Value)
| SdkCreate (model modelfile : jstring) (stream : bool)
| SdkDelete (model : jstring)
| SdkCopy (source destination : jstring)
| SdkShow (model : jstring)
| SdkPull (model : jstring) (stream : bool)
| SdkPush (model : jstring) (stream : bool)
| SdkEmbeddings (model prompt : jstring).

(** What the process asks of the outside, in the order it asks. *)
Inductive Event :=
| Fetch (url : jstring)
| Exec (command : jstring) (opts : ExecOptions)
| Sdk (host : jstring) (call : SdkCall)
| Listen (port : N).

Definition Trace := list Event.

Inductive FetchOutcome :=
| FetchRejected (msg : jstring)
    (* refused, unresolved name, or aborted by the 10 s timer *)
| FetchResponse (ok : bool) (status : N) (statusText : jstring)
    (body : option Value).
    (* [body]: what [response.json()] resolves to, [None] when it rejects *)

Inductive ExecOutcome :=
| ExecDone (stdout stderr : jstring)
    (* exit status 0, within the timeout and the buffer *)
| ExecFailed (why : ExecFailure) (msg : jstring).

Inductive Answer (A : Type) :=
| Resolved (a : A)
| Rejected (msg : jstring).
Arguments Resolved {A} a.
Arguments Rejected {A} msg.

Record Iface := { family : jstring; internal : bool; address : jstring }.

(** The environment of the process.  Each reply may depend on everything
    the process has asked so far.  The SDK's answers have the shape its
    declarations give them: [list()] resolves to the array of models. *)
Record World := {
  env_OLLAMA_HOST : option jstring;
  env_RELAY_HOST : option jstring;
  env_RELAY_PORT : option N;
  ip_address : jstring;
  networkInterfaces : list (string * list Iface);
  fetch_reply : Trace -> jstring -> FetchOutcome;
  exec_reply : Trace -> jstring -> ExecOptions -> ExecOutcome;
  sdk_reply : Trace -> jstring -> SdkCall -> Answer Value;
  sdk_parts : Trace -> jstring -> SdkCall -> Answer (list Value);
  sdk_models : Trace -> jstring -> Answer (list Value);
  port_free : Trace -> N -> bool
}.

(* ===================================================================== *)
(** ** The process state and the effect monad *)
(* ===================================================================== *)

(** [initiated] is the flag of the exported object.  [ollama], [useCLI] and
    [activeOllamaHost] are the [let] variables of [init] that the route
    handlers close over ([ollama] is the SDK client, known by the host it is
    bound to; [None] is [null]); [host] and [port] are the relay's.
    [listening] is the port of [app.listen] once [init] got there. *)
Record Proc := {
  initiated : bool;
  ollama : option jstring;
  useCLI : bool;
  activeOllamaHost : jstring;
  host : jstring;
  port : N;
  listening : option N;
  trace : Trace
}.

Definition boot : Proc :=
  {| initiated := false; ollama := None; useCLI := false;
     activeOllamaHost := []; host := []; port := 0; listening := None;
     trace := [] |}.

Definition set_initiated (b : bool) (p : Proc) : Proc :=
  {| initiated := b; ollama := ollama p; useCLI := useCLI p;
     activeOllamaHost := activeOllamaHost p; host := host p; port := port p;
     listening := listening p; trace := trace p |}.
Definition set_ollama (o : option jstring) (p : Proc) : Proc :=
  {| initiated := initiated p; ollama := o; useCLI := useCLI p;
     activeOllamaHost := activeOllamaHost p; host := host p; port := port p;
     listening := listening p; trace := trace p |}.
Definition set_useCLI (b : bool) (p : Proc) : Proc :=
  {| initiated := initiated p; ollama := ollama p; useCLI := b;
     activeOllamaHost := activeOllamaHost p; host := host p; port := port p;
     listening := listening p; trace := trace p |}.
Definition set_activeOllamaHost (h : jstring) (p : Proc) : Proc :=
  {| initiated := initiated p; ollama := ollama p; useCLI := useCLI p;
     activeOllamaHost := h; host := host p; port := port p;
     listening := listening p; trace := trace p |}.
Definition set_host (h : jstring) (p : Proc) : Proc :=
  {| initiated := initiated p; ollama := ollama p; useCLI := useCLI p;
     activeOllamaHost := activeOllamaHost p; host := h; port := port p;
     listening := listening p; trace := trace p |}.
Definition set_port (n : N) (p : Proc) : Proc :=
  {| initiated := initiated p; ollama := ollama p; useCLI := useCLI p;
     activeOllamaHost := activeOllamaHost p; host := host p; port := n;
     listening := listening p; trace := trace p |}.
Definition set_listening (l : option N) (p : Proc) : Proc :=
  {| initiated := initiated p; ollama := ollama p; useCLI := useCLI p;
     activeOllamaHost := activeOllamaHost p; host := host p; port := port p;
     listening := l; trace := trace p |}.
Definition log_event (e : Event) (p : Proc) : Proc :=
  {| initiated := initiated p; ollama := ollama p; useCLI := useCLI p;
     activeOllamaHost := activeOllamaHost p; host := host p; port := port p;
     listening := listening p; trace := trace p ++ [e] |}.

(** A computation resolves, throws, or is still running when the fuel of a
    loop is spent. *)
Inductive Result (A : Type) :=
| Ok (a : A)
| Throw (e : JsError)
| Running.
Arguments Ok {A} a.
Arguments Throw {A} e.
Arguments Running {A}.

Definition Eff (A : Type) : Type := World -> Proc -> Result A * Proc.

Definition ret {A} (a : A) : Eff A := fun _ p => (Ok a, p).
Definition throw {A} (e : JsError) : Eff A := fun _ p => (Throw e, p).
Definition bind {A B} (m : Eff A) (k : A -> Eff B) : Eff B :=
  fun w p =>
    match m w p with
    | (Ok a, p') => k a w p'
    | (Throw e, p') => (Throw e, p')
    | (Running, p') => (Running, p')
    end.
(** [try { m } catch (error) { handler error }] *)
Definition try_catch {A} (m : Eff A) (handler : JsError -> Eff A) : Eff A :=
  fun w p =>
    match m w p with
    | (Throw e, p') => handler e w p'
    | r => r
    end.

Declare Scope eff_scope.
Delimit Scope eff_scope with eff.
Notation "x <- m ;; k" := (bind m (fun x => k))
  (at level 61, m at next level, right associativity) : eff_scope.
Notation "m ;;; k" := (bind m (fun _ => k))
  (at level 61, right associativity) : eff_scope.
Local Open Scope eff_scope.

Definition read {A} (f : Proc -> A) : Eff A := fun _ p => (Ok (f p), p).
Definition write (f : Proc -> Proc) : Eff unit := fun _ p => (Ok tt, f p).
Definition ask {A} (f : World -> A) : Eff A := fun w p => (Ok (f w), p).

(** A request to the outside: answered from the history, then logged. *)
Definition request {A} (e : Event) (reply : World -> Trace -> A) : Eff A :=
  fun w p => (Ok (reply w (trace p)), log_event e p).

Definition type_error (msg : string) : JsError :=
  {| cause := TypeErr; message := js msg |}.

(** [fetch(url, {signal})] with the 10 s abort timer of
    [testOllamaConnection]. *)
Definition fetch (url : jstring) : Eff FetchOutcome :=
  request (Fetch url) (fun w tr => fetch_reply w tr url).

(** [execAsync(command, opts)]: resolves to [{stdout, stderr}] when the
    child exits with status 0 and rejects otherwise. *)
Definition execAsync (command : jstring) (opts : ExecOptions)
  : Eff (jstring * jstring) :=
  o <- request (Exec command opts) (fun w tr => exec_reply w tr command opts) ;;
  match o with
  | ExecDone out err => ret (out, err)
  | ExecFailed why msg => throw {| cause := ExecErr why; message := msg |}
  end.

Definition of_answer {A} (a : Answer A) : Eff A :=
  match a with
  | Resolved v => ret v
  | Rejected msg => throw {| cause := SdkErr; message := msg |}
  end.

(** A call of the SDK client bound to [h] that resolves to one value. *)
Definition sdk (h : jstring) (call : SdkCall) : Eff Value :=
  a <- request (Sdk h call) (fun w tr => sdk_reply w tr h call) ;;
  of_answer a.

(** A streaming call: the parts the returned iterator yields.  The call
    either rejects or yields all its parts; an iterator that fails after
    some parts is not modelled. *)
Definition sdk_stream (h : jstring) (call : SdkCall) : Eff (list Value) :=
  a <- request (Sdk h call) (fun w tr => sdk_parts w tr h call) ;;
  of_answer a.

(** [ollama.list()] *)
Definition sdk_list (h : jstring) : Eff (list Value) :=
  a <- request (Sdk h SdkList) (fun w tr => sdk_models w tr h) ;;
  of_answer a.

(* ===================================================================== *)
(** ** Endpoint prober *)
(* ===================================================================== *)

Definition is_external_v4 (i : Iface) : bool :=
  eqb_str (family i) (js "IPv4") && negb (internal i).

Fixpoint first_address (l : list Iface) : option jstring :=
  match l with
  | [] => None
  | i :: t => if is_external_v4 i then Some (address i) else first_address t
  end.

Fixpoint scan_interfaces (l : list (string * list Iface)) : option jstring :=
  match l with
  | [] => None
  | (_, ifaces) :: t =>
      match first_address ifaces with
      | Some a => Some a
      | None => scan_interfaces t
      end
  end.

Definition getLocalIPAddress (w : World) : jstring :=
  match scan_interfaces (networkInterfaces w) with
  | Some a => a
  | None => js "0.0.0.0"
  end.

Definition testOllamaConnection (h : jstring) : Eff bool :=
  try_catch
    (response <- fetch (h ++ js "/api/version") ;;
     match response with
     | FetchRejected msg => throw {| cause := FetchErr; message := msg |}
     | FetchResponse true _ _ body =>
         match body with
         | None => throw {| cause := ParseErr; message := js "invalid json" |}
         | Some VNull =>
             (* [version.version] of [null] *)
             throw (type_error "Cannot read properties of null (reading 'version')")
         | Some _ => ret true
         end
     | FetchResponse false _ _ _ => ret false
     end)
    (fun _ => ret false).

(** [[...].filter(Boolean)]: [None] is [undefined]. *)
Definition filter_Boolean (l : list (option jstring)) : list jstring :=
  flat_map (fun v => match v with
                     | Some s => if truthy s then [s] else []
                     | None => []
                     end) l.

Definition possibleHosts (w : World) : list jstring :=
  let localIP := getLocalIPAddress w in
  filter_Boolean
    [ env_OLLAMA_HOST w;
      Some (js "http://localhost:11434");
      Some (js "http://127.0.0.1:11434");
      Some (js "http://" ++ localIP ++ js ":11434");
      Some (js "http://0.0.0.0:11434");
      Some (js "https://lzcollama.ponzs.heiyu.space");
      Some (js "http://baota.ponzs.heiyu.space:11434");
      Some (js "https://a.talkflow.team");
      Some (js "http://host.docker.internal:11434");
      Some (js "http://172.17.0.1:11434");
      Some (js "http://172.18.0.1:11434");
      Some (js "http://192.168.1.1:11434");
      Some (js "http://10.0.0.1:11434") ].

(** The loop [for (const host of possibleHosts)]. *)
Fixpoint probe (hosts : list jstring) : Eff (option jstring) :=
  match hosts with
  | [] => ret None
  | h :: rest =>
      isConnected <- testOllamaConnection h ;;
      if isConnected then ret (Some h) else probe rest
  end.

Definition findWorkingOllamaHost : Eff (option jstring) :=
  hosts <- ask possibleHosts ;;
  probe hosts.

(* ===================================================================== *)
(** ** CLI transport *)
(* ===================================================================== *)

Definition testOllamaCLI : Eff bool :=
  try_catch
    (_ <- execAsync (js "ollama --version")
            {| timeout := 5000; maxBuffer := None; shell := None |} ;;
     ret true)
    (fun _ => ret false).

Record Model :=
  { name : jstring; modified_at : jstring; size : jstring; digest : jstring }.

(** [parts[i] || ''] *)
Definition part_or_empty (parts : list jstring) (i : nat) : jstring :=
  or_else (nth_error parts i) [].

(** The arrow function mapped over the lines.  [split] yields at least one
    piece, so [parts[0]] is a string. *)
Definition model_of_line (line : jstring) : Model :=
  let parts := split_ws line in
  {| name := nth 0 parts [];
     modified_at := part_or_empty parts 1;
     size := part_or_empty parts 2;
     digest := part_or_empty parts 3 |}.

Definition parse_model_list (stdout : jstring) : list Model :=
  let lines := tl (split_char LF (trim stdout)) in
  map model_of_line (filter (fun line => truthy (trim line)) lines).

Definition rethrow {A} (prefix : string) (e : JsError) : Eff A :=
  throw {| cause := cause e; message := js prefix ++ message e |}.

Definition getModelsViaCLI : Eff (list Model) :=
  try_catch
    (r <- execAsync (js "ollama list")
            {| timeout := 10000; maxBuffer := None; shell := None |} ;;
     ret (parse_model_list (fst r)))
    (rethrow "CLI List Error: ").

(** [s.replace(/"/g, '\\"').replace(/\$/g, '\\$')] *)
Definition escape_prompt (s : jstring) : jstring :=
  replace_all DOLLAR [BACKSLASH; DOLLAR]
    (replace_all DQUOTE [BACKSLASH; DQUOTE] s).

Definition run_options : ExecOptions :=
  {| timeout := 60000; maxBuffer := Some (1024 * 1024);
     shell := Some (js "/bin/bash") |}.

(** The template [echo "${prompt}" | ollama run ${model}]. *)
Definition run_command (prompt model : jstring) : jstring :=
  js "echo " ++ [DQUOTE] ++ prompt ++ [DQUOTE] ++ js " | ollama run " ++ model.

(** The object [chatViaCLI] builds from the captured output. *)
Definition chat_envelope (stdout : jstring) : Value :=
  VObj [ ("message", VObj [ ("role", VStr (js "assistant"));
                            ("content", VStr (trim stdout)) ]);
         ("done", VBool true) ].

(** The object [generateViaCLI] builds from the captured output. *)
Definition generate_envelope (stdout : jstring) : Value :=
  VObj [ ("response", VStr (trim stdout)); ("done", VBool true) ].

(** Reading [.content] of [undefined], as V8 words it. *)
Definition no_content : JsError :=
  type_error "Cannot read properties of undefined (reading 'content')".

Definition chatViaCLI (model : jstring) (messages : list Message) : Eff Value :=
  try_catch
    (let lastMessage := item messages (Z.of_nat (List.length messages) - 1) in
     text <- match lastMessage with
             | Some m => ret (content m)
             | None => throw no_content
             end ;;
     let prompt := escape_prompt text in
     r <- execAsync (run_command prompt model) run_options ;;
     ret (chat_envelope (fst r)))
    (rethrow "CLI Chat Error: ").

Definition generateViaCLI (model prompt : jstring) : Eff Value :=
  try_catch
    (let cleanPrompt := escape_prompt prompt in
     r <- execAsync (run_command cleanPrompt model) run_options ;;
     ret (generate_envelope (fst r)))
    (rethrow "CLI Generate Error: ").

(* ===================================================================== *)
(** ** init: resolving the backend *)
(* ===================================================================== *)

(** The fields of [config] the backend and the listener depend on;
    [None] is a field left out.  [port] is taken after [parseInt]. *)
Record Config := {
  cfg_host : option jstring;
  cfg_port : option N;
  cfg_ollamaHost : option jstring
}.

(** What [init] returns: [{ app, db }], or nothing at the bare [return]. *)
Inductive InitReturn := AppDb | Undefined.

Definition default_to {A} (given : option A) (dflt : Eff A) : Eff A :=
  match given with
  | Some a => ret a
  | None => dflt
  end.

Definition testPort (n : N) : Eff bool :=
  request (Listen n) (fun w tr => port_free w tr n).

(** [while (!(await testPort(currentPort))) currentPort++], at most [fuel]
    tests. *)
Fixpoint find_port (fuel : nat) (currentPort : N) : Eff N :=
  match fuel with
  | O => fun _ p => (Running, p)
  | S fuel' =>
      free <- testPort currentPort ;;
      if free then ret currentPort else find_port fuel' (currentPort + 1)
  end.

Definition is_null (o : option jstring) : bool :=
  match o with Some _ => false | None => true end.

(** [init] up to the point where the server listens.  What follows in the
    source (the Gun relay, its counters, the printed summary and the QR
    code) assigns none of the variables kept in [Proc]. *)
Definition init (fuel : nat) (config : Config) : Eff InitReturn :=
  started <- read initiated ;;
  if started then ret Undefined
  else
    write (set_initiated true) ;;;
    h <- default_to (cfg_host config)
           (ask (fun w => or_else (env_RELAY_HOST w) (ip_address w))) ;;
    n <- default_to (cfg_port config)
           (ask (fun w => match env_RELAY_PORT w with
                          | Some q => q
                          | None => 8765
                          end)) ;;
    ollamaHost <- default_to (cfg_ollamaHost config)
           (ask (fun w => or_else (env_OLLAMA_HOST w)
                            (js "http://localhost:11434"))) ;;
    write (set_host h) ;;;
    write (set_port n) ;;;
    workingHost <- findWorkingOllamaHost ;;
    write (set_ollama None) ;;;
    write (set_useCLI false) ;;;
    write (set_activeOllamaHost (or_else workingHost ollamaHost)) ;;;
    match workingHost with
    | Some wh =>
        try_catch
          (write (set_ollama (Some wh)) ;;;
           _ <- sdk_list wh ;;
           write (set_activeOllamaHost wh))
          (fun _ => write (set_ollama None))
    | None => ret tt
    end ;;;
    client <- read ollama ;;
    (if is_null client then
       cliWorks <- testOllamaCLI ;;
       if cliWorks then
         try_catch
           (_ <- getModelsViaCLI ;;
            write (set_useCLI true))
           (fun _ => ret tt)
       else ret tt
     else ret tt) ;;;
    currentPort <- find_port fuel n ;;
    write (set_listening (Some currentPort)) ;;;
    write (set_port currentPort) ;;;
    ret AppDb.

(** The three cases every handler distinguishes, as in
    [ollama ? "HTTP API" : (useCLI ? "CLI Mode" : "Unavailable")]. *)
Inductive Mode := NetworkAPI | CliFallback | Unavailable.

Definition mode (p : Proc) : Mode :=
  match ollama p with
  | Some _ => NetworkAPI
  | None => if useCLI p then CliFallback else Unavailable
  end.

(* ===================================================================== *)
(** ** Routes *)
(* ===================================================================== *)

(** What a handler does to [res]: one JSON body with a status, a
    [text/event-stream] of parts closed by [res.end()], or nothing. *)
Inductive HttpResponse :=
| Sent (status : N) (body : Value)
| Events (parts : list Value)
| NoReply.

Definition str (s : string) : Value := VStr (js s).

Definition value_of_model (m : Model) : Value :=
  VObj [ ("name", VStr (name m)); ("modified_at", VStr (modified_at m));
         ("size", VStr (size m)); ("digest", VStr (digest m)) ].

Definition service_unavailable : HttpResponse :=
  Sent 503
    (VObj [ ("error", str "Ollama 服务不可用");
            ("details", str "HTTP API 和 CLI 模式都不可用");
            ("hint", str "请检查 Ollama 是否正确安装和运行");
            ("attempted_hosts",
             VArr [ str "HTTP API: 已尝试多个地址";
                    str "CLI 模式: 已尝试 ollama 命令" ]) ]).

(** The middleware in front of every backend route. *)
Definition checkOllamaConnection (next : Eff HttpResponse) : Eff HttpResponse :=
  client <- read ollama ;;
  cli <- read useCLI ;;
  if is_null client && negb cli then ret service_unavailable
  else next.

(** [ollama ? 'HTTP API' : (useCLI ? 'CLI' : 'none')] *)
Definition mode_label : Eff Value :=
  client <- read ollama ;;
  cli <- read useCLI ;;
  ret (if is_null client then (if cli then str "CLI" else str "none")
       else str "HTTP API").

Definition streaming_rejected : HttpResponse :=
  Sent 400
    (VObj [ ("error", str "CLI 模式不支持流式响应");
            ("hint", str "请使用非流式模式 (stream: false)") ]).

Definition http_only_rejected (hint : string) : HttpResponse :=
  Sent 400
    (VObj [ ("error", str "此功能仅支持 HTTP API 模式");
            ("hint", str hint) ]).

Definition get_models : Eff HttpResponse :=
  checkOllamaConnection
    (try_catch
       (client <- read ollama ;;
        match client with
        | Some h =>
            models <- sdk_list h ;;
            ret (Sent 200 (VArr models))
        | None =>
            cli <- read useCLI ;;
            if cli then
              models <- getModelsViaCLI ;;
              ret (Sent 200 (VArr (map value_of_model models)))
            else ret (Sent 200 VUndefined)
        end)
       (fun error =>
          label <- mode_label ;;
          ret (Sent 500
                 (VObj [ ("error", VStr (message error));
                         ("hint", str "请检查 Ollama 服务是否正常运行");
                         ("mode", label) ])))).

Definition completion_failed (model : jstring) (error : JsError)
  : Eff HttpResponse :=
  label <- mode_label ;;
  ret (Sent 500
         (VObj [ ("error", VStr (message error));
                 ("model", VStr model);
                 ("mode", label);
                 ("hint", str "请检查模型名称是否正确，以及 Ollama 服务状态") ])).

Definition post_chat (model : jstring) (messages : list Message)
    (stream : bool) (options : Value) : Eff HttpResponse :=
  checkOllamaConnection
    (try_catch
       (client <- read ollama ;;
        match client with
        | Some h =>
            if stream then
              parts <- sdk_stream h (SdkChat model messages true options) ;;
              ret (Events parts)
            else
              response <- sdk h (SdkChat model messages false options) ;;
              ret (Sent 200 response)
        | None =>
            cli <- read useCLI ;;
            if cli then
              if stream then ret streaming_rejected
              else
                response <- chatViaCLI model messages ;;
                ret (Sent 200 response)
            else ret NoReply
        end)
       (completion_failed model)).

Definition post_generate (model prompt : jstring)
    (stream : bool) (options : Value) : Eff HttpResponse :=
  checkOllamaConnection
    (try_catch
       (client <- read ollama ;;
        match client with
        | Some h =>
            if stream then
              parts <- sdk_stream h (SdkGenerate model prompt true options) ;;
              ret (Events parts)
            else
              response <- sdk h (SdkGenerate model prompt false options) ;;
              ret (Sent 200 response)
        | None =>
            cli <- read useCLI ;;
            if cli then
              if stream then ret streaming_rejected
              else
                response <- generateViaCLI model prompt ;;
                ret (Sent 200 response)
            else ret NoReply
        end)
       (completion_failed model)).

(** The guard at the head of each management route and of embeddings. *)
Definition http_only (hint : string) (serve : jstring -> Eff HttpResponse)
  : Eff HttpResponse :=
  client <- read ollama ;;
  match client with
  | None => ret (http_only_rejected hint)
  | Some h =>
      try_catch (serve h)
        (fun error =>
           ret (Sent 500 (VObj [ ("error", VStr (message error));
                                 ("mode", str "HTTP API") ])))
  end.

Definition post_create (name modelfile : jstring) (stream : bool)
  : Eff HttpResponse :=
  checkOllamaConnection
    (http_only "CLI 模式不支持模型创建"
       (fun h =>
          if stream then
            parts <- sdk_stream h (SdkCreate name modelfile true) ;;
            ret (Events parts)
          else
            response <- sdk h (SdkCreate name modelfile false) ;;
            ret (Sent 200 response))).

Definition delete_model (name : jstring) : Eff HttpResponse :=
  checkOllamaConnection
    (http_only "CLI 模式不支持模型删除"
       (fun h =>
          _ <- sdk h (SdkDelete name) ;;
          ret (Sent 200
                 (VObj [ ("message",
                          VStr (js "Model " ++ name
                                ++ js " deleted successfully")) ])))).

Definition post_copy (source destination : jstring) : Eff HttpResponse :=
  checkOllamaConnection
    (http_only "CLI 模式不支持模型复制"
       (fun h =>
          _ <- sdk h (SdkCopy source destination) ;;
          ret (Sent 200
                 (VObj [ ("message",
                          VStr (js "Model copied from " ++ source
                                ++ js " to " ++ destination)) ])))).

Definition get_model (name : jstring) : Eff HttpResponse :=
  checkOllamaConnection
    (http_only "CLI 模式不支持模型详情查询"
       (fun h =>
          response <- sdk h (SdkShow name) ;;
          ret (Sent 200 response))).

Definition post_pull (name : jstring) (stream : bool) : Eff HttpResponse :=
  checkOllamaConnection
    (http_only "CLI 模式不支持模型拉取"
       (fun h =>
          if stream then
            parts <- sdk_stream h (SdkPull name true) ;;
            ret (Events parts)
          else
            response <- sdk h (SdkPull name false) ;;
            ret (Sent 200 response))).

Definition post_push (name : jstring) (stream : bool) : Eff HttpResponse :=
  checkOllamaConnection
    (http_only "CLI 模式不支持模型推送"
       (fun h =>
          if stream then
            parts <- sdk_stream h (SdkPush name true) ;;
            ret (Events parts)
          else
            response <- sdk h (SdkPush name false) ;;
            ret (Sent 200 response))).

Definition post_embeddings (model prompt : jstring) : Eff HttpResponse :=
  checkOllamaConnection
    (http_only "CLI 模式不支持嵌入生成"
       (fun h =>
          response <- sdk h (SdkEmbeddings model prompt) ;;
          ret (Sent 200 response))).

Definition get_status : Eff HttpResponse :=
  client <- read ollama ;;
  cli <- read useCLI ;;
  active <- read activeOllamaHost ;;
  h <- read host ;;
  n <- read port ;;
  ret (Sent 200
    (VObj
      [ ("service", str "Gun-Ollama Relay");
        ("gun_relay",
         VObj [ ("status", str "running"); ("port", VNum n);
                ("host", VStr h) ]);
        ("ollama",
         VObj
           [ ("http_api",
              VObj [ ("available", VBool (negb (is_null client)));
                     ("host", if is_null client then VNull else VStr active) ]);
             ("cli_mode",
              VObj [ ("available", VBool cli);
                     ("status", if cli then str "active"
                                else str "unavailable") ]);
             ("overall_status",
              if is_null client
              then (if cli then str "CLI Mode" else str "Unavailable")
              else str "HTTP API") ]);
        ("endpoints",
         VObj [ ("models", str "/api/models"); ("chat", str "/api/chat");
                ("generate", str "/api/generate");
                ("status", str "/api/status") ]) ])).

(** A request as the route table hands it over, fields of the body and
    of the path already taken apart and of the type the handler expects. *)
Inductive Request :=
| GetModels
| PostChat (model : jstring) (messages : list Message) (stream : bool)
    (options : Value)
| PostGenerate (model prompt : jstring) (stream : bool) (options : Value)
| PostCreate (name modelfile : jstring) (stream : bool)
| DeleteModel (name : jstring)
| PostCopy (source destination : jstring)
| GetModel (name : jstring)
| PostPull (name : jstring) (stream : bool)
| PostPush (name : jstring) (stream : bool)
| PostEmbeddings (model prompt : jstring)
| GetStatus.

Definition handle (rq : Request) : Eff HttpResponse :=
  match rq with
  | GetModels => get_models
  | PostChat m msgs s o => post_chat m msgs s o
  | PostGenerate m pr s o => post_generate m pr s o
  | PostCreate n mf s => post_create n mf s
  | DeleteModel n => delete_model n
  | PostCopy s d => post_copy s d
  | GetModel n => get_model n
  | PostPull n s => post_pull n s
  | PostPush n s => post_push n s
  | PostEmbeddings m pr => post_embeddings m pr
  | GetStatus => get_status
  end.

(** The management operations and embeddings, which exist for the HTTP
    backend only. *)
Definition is_management (rq : Request) : bool :=
  match rq with
  | PostCreate _ _ _ | DeleteModel _ | PostCopy _ _ | GetModel _
  | PostPull _ _ | PostPush _ _ | PostEmbeddings _ _ => true
  | _ => false
  end.

(** Whatever can happen to the process once it runs: a call of [init], or a
    request that reaches the listening server. *)
Inductive Op :=
| CallInit (fuel : nat) (config : Config)
| Serve (rq : Request).

Inductive Outcome :=
| Returned (r : InitReturn)
| Replied (r : HttpResponse)
| Refused.     (* nothing listens yet *)

Definition step (op : Op) : Eff Outcome :=
  match op with
  | CallInit fuel config => r <- init fuel config ;; ret (Returned r)
  | Serve rq =>
      l <- read listening ;;
      match l with
      | Some _ => r <- handle rq ;; ret (Replied r)
      | None => ret Refused
      end
  end.

(** Running operations one after the other; a failed one does not stop
    the next from being tried. *)
Fixpoint run (w : World) (ops : list Op) (p : Proc) : Proc :=
  match ops with
  | [] => p
  | op :: rest => run w rest (snd (step op w p))
  end.

(* ===================================================================== *)
(** ** Vocabulary of the statements *)
(* ===================================================================== *)

(** The liveness request [testOllamaConnection] sends for a host. *)
Definition version_request (h : jstring) : Event :=
  Fetch (h ++ js "/api/version").

Definition log_events (evs : list Event) (p : Proc) : Proc :=
  fold_left (fun q e => log_event e q) evs p.

(** The process after liveness checks on [hosts], in this order. *)
Definition checked (hosts : list jstring) (p : Proc) : Proc :=
  log_events (map version_request hosts) p.

(** The liveness check of [h], run in state [p], succeeds. *)
Definition alive (w : World) (p : Proc) (h : jstring) : bool :=
  match fst (testOllamaConnection h w p) with
  | Ok true => true
  | _ => false
  end.

(** The flags the status route reports and the middleware tests. *)
Definition http_active (p : Proc) : bool := negb (is_null (ollama p)).
Definition cli_active (p : Proc) : bool := useCLI p.
Definition unavailable (p : Proc) : bool :=
  is_null (ollama p) && negb (useCLI p).

(** Two states that agree on everything but the trace. *)
Definition same_vars (p q : Proc) : Prop :=
  initiated q = initiated p /\ ollama q = ollama p /\ useCLI q = useCLI p
  /\ activeOllamaHost q = activeOllamaHost p /\ host q = host p
  /\ port q = port p /\ listening q = listening p.

(** [frames m]: running [m] changes nothing but the trace. *)
Definition frames {A : Type} (m : Eff A) : Prop :=
  forall w p, same_vars p (snd (m w p)).

(** A call of [init] hands back the app of a backend resolved to [m]. *)
Definition resolves_to (r : Result InitReturn * Proc) (m : Mode) : Prop :=
  fst r = Ok AppDb /\ mode (snd r) = m.

Definition status_of (r : HttpResponse) : option N :=
  match r with
  | Sent s _ => Some s
  | Events _ => Some 200
  | NoReply => None
  end.

(** The groups of the candidate list, in the order of the array literal. *)
Definition configured (w : World) : list jstring :=
  match env_OLLAMA_HOST w with
  | Some (c :: t) => [c :: t]
  | _ => []
  end.
Definition loopback_hosts : list jstring :=
  [ js "http://localhost:11434"; js "http://127.0.0.1:11434" ].
Definition lan_host (w : World) : jstring :=
  js "http://" ++ getLocalIPAddress w ++ js ":11434".
Definition wildcard_host : jstring := js "http://0.0.0.0:11434".
Definition remote_fallbacks : list jstring :=
  [ js "https://lzcollama.ponzs.heiyu.space";
    js "http://baota.ponzs.heiyu.space:11434";
    js "https://a.talkflow.team" ].
Definition container_gateways : list jstring :=
  [ js "http://host.docker.internal:11434";
    js "http://172.17.0.1:11434";
    js "http://172.18.0.1:11434" ].
Definition private_gateways : list jstring :=
  [ js "http://192.168.1.1:11434"; js "http://10.0.0.1:11434" ].

(** Every known remote fallback stands after every container gateway. *)
Definition remote_fallbacks_last (l : list jstring) : Prop :=
  forall i j r g,
    nth_error l i = Some r -> In r remote_fallbacks ->
    nth_error l j = Some g -> In g container_gateways ->
    (j < i)%nat.

(** The version command of the CLI probe, and "exit status 0 with
    non-empty standard output". *)
Definition version_options : ExecOptions :=
  {| timeout := 5000; maxBuffer := None; shell := None |}.

Definition exits_zero (o : ExecOutcome) : bool :=
  match o with
  | ExecDone _ _ => true
  | ExecFailed _ _ => false
  end.

Definition exits_zero_with_output (o : ExecOutcome) : bool :=
  match o with
  | ExecDone out _ => truthy out
  | ExecFailed _ _ => false
  end.

(** Parsing of the model table as the specification words it: the first
    line goes, blank lines go, every other line is split on white space. *)
Definition nonblank (line : jstring) : bool := truthy (trim line).

Definition rows (lines : list jstring) : list Model :=
  map model_of_line (filter nonblank lines).

Definition parse_model_list_spec (stdout : jstring) : list Model :=
  rows (tl (split_char LF stdout)).

(** A string of white space only. *)
Definition blank (s : jstring) : bool := forallb is_space s.

(** The piece [split(/\s+/)] adds for white space at the end of a line. *)
Definition tail_piece (t0 : jstring) : list jstring :=
  match t0 with [] => [] | _ :: _ => [[]] end.

(** What a run of the local tool comes to, by the outcome of the command. *)
Definition cli_result (label : string) (envelope : jstring -> Value)
    (o : ExecOutcome) : Result Value :=
  match o with
  | ExecDone out _ => Ok (envelope out)
  | ExecFailed why msg =>
      Throw {| cause := ExecErr why; message := js label ++ msg |}
  end.

(** One code unit of a prompt as the shell is to see it. *)
Definition escape_char (c : char16) : jstring :=
  if c =? DQUOTE then [BACKSLASH; DQUOTE]
  else if c =? DOLLAR then [BACKSLASH; DOLLAR]
  else [c].

(** The error kinds that section 7 of the specification defines, and the
    kind a failure falls under by what caused it: a command that ran out
    of time or of buffer, or a transport that reported a failure.  A
    [TypeError] raised by the handler's own code is none of them. *)
Inductive ErrorKind :=
| BackendUnavailable
| UnsupportedByMode
| StreamingUnsupported
| CliTimeout
| CliOutputTooLarge
| UpstreamError.

Definition kind_of_cause (c : Cause) : option ErrorKind :=
  match c with
  | ExecErr TimedOut => Some CliTimeout
  | ExecErr BufferExceeded => Some CliOutputTooLarge
  | ExecErr (NonZeroExit _) | ExecErr SpawnError => Some UpstreamError
  | SdkErr | FetchErr | ParseErr => Some UpstreamError
  | TypeErr => None
  end.

(* ===================================================================== *)
(** ** Vocabulary of the further properties *)
(* ===================================================================== *)

(** Every interface entry, in the order the two loops of
    [getLocalIPAddress] visit them. *)
Definition all_interfaces (w : World) : list Iface :=
  flat_map snd (networkInterfaces w).

(** The [k] ports from [n] upwards. *)
Fixpoint ports (n : N) (k : nat) : list N :=
  match k with
  | O => []
  | S k' => n :: ports (n + 1) k'
  end.

(** The process after [testPort] on the [k] ports from [n] upwards. *)
Definition port_tested (n : N) (k : nat) (p : Proc) : Proc :=
  log_events (map Listen (ports n k)) p.

(** The two commands of the CLI fallback at startup. *)
Definition list_options : ExecOptions :=
  {| timeout := 10000; maxBuffer := None; shell := None |}.
Definition version_probe : Event := Exec (js "ollama --version") version_options.
Definition list_probe : Event := Exec (js "ollama list") list_options.

Definition is_exec (e : Event) : bool :=
  match e with
  | Exec _ _ => true
  | _ => false
  end.

Definition is_sdk (e : Event) : bool :=
  match e with
  | Sdk _ _ => true
  | _ => false
  end.

(** The port [init] starts its search from, the relay host and the
    configured Ollama host, after the defaults of the destructuring. *)
Definition start_port (w : World) (config : Config) : N :=
  match cfg_port config with
  | Some n => n
  | None => match env_RELAY_PORT w with Some q => q | None => 8765 end
  end.
Definition relay_host (w : World) (config : Config) : jstring :=
  match cfg_host config with
  | Some h => h
  | None => or_else (env_RELAY_HOST w) (ip_address w)
  end.
Definition configured_ollamaHost (w : World) (config : Config) : jstring :=
  match cfg_ollamaHost config with
  | Some h => h
  | None => or_else (env_OLLAMA_HOST w) (js "http://localhost:11434")
  end.

(** The call a route makes on the SDK client when there is one; the status
    route makes none. *)
Definition sdk_call_of (rq : Request) : option SdkCall :=
  match rq with
  | GetModels => Some SdkList
  | PostChat m msgs s o => Some (SdkChat m msgs s o)
  | PostGenerate m pr s o => Some (SdkGenerate m pr s o)
  | PostCreate n mf s => Some (SdkCreate n mf s)
  | DeleteModel n => Some (SdkDelete n)
  | PostCopy s d => Some (SdkCopy s d)
  | GetModel n => Some (SdkShow n)
  | PostPull n s => Some (SdkPull n s)
  | PostPush n s => Some (SdkPush n s)
  | PostEmbeddings m pr => Some (SdkEmbeddings m pr)
  | GetStatus => None
  end.

(** [obj[key]] on a value. *)
Fixpoint lookup (key : string) (fields : list (string * Value)) : Value :=
  match fields with
  | [] => VUndefined
  | (k, v) :: rest => if String.eqb k key then v else lookup key rest
  end.

Definition get (key : string) (v : Value) : Value :=
  match v with
  | VObj fields => lookup key fields
  | _ => VUndefined
  end.

Definition body_of (r : HttpResponse) : Value :=
  match r with
  | Sent _ b => b
  | Events _ => VUndefined
  | NoReply => VUndefined
  end.

(** The states [init] goes through, by what the outside answered. *)
Definition after_sdk (w : World) (found : option jstring) (p : Proc) : Proc :=
  match found with
  | Some wh =>
      match sdk_models w (trace p) wh with
      | Resolved _ =>
          set_activeOllamaHost wh
            (log_event (Sdk wh SdkList) (set_ollama (Some wh) p))
      | Rejected _ =>
          set_ollama None
            (log_event (Sdk wh SdkList) (set_ollama (Some wh) p))
      end
  | None => p
  end.

Definition after_cli (w : World) (p : Proc) : Proc :=
  if is_null (ollama p) then
    match exec_reply w (trace p) (js "ollama --version") version_options with
    | ExecFailed _ _ => log_event version_probe p
    | ExecDone _ _ =>
        match exec_reply w (trace p ++ [version_probe]) (js "ollama list")
                list_options with
        | ExecDone _ _ =>
            set_useCLI true (log_event list_probe (log_event version_probe p))
        | ExecFailed _ _ => log_event list_probe (log_event version_probe p)
        end
    end
  else p.

(** The answer of the chat and generate routes to a failure. *)
Definition completion_error (msg model : jstring) (label : string)
  : HttpResponse :=
  Sent 500
    (VObj [ ("error", VStr msg); ("model", VStr model); ("mode", str label);
            ("hint", str "请检查模型名称是否正确，以及 Ollama 服务状态") ]).

(** A string with no white space in it. *)
Definition spaceless (s : jstring) : bool :=
  forallb (fun c => negb (is_space c)) s.

(** A text the escaping has nothing to do on. *)
Definition plain (s : jstring) : bool :=
  forallb (fun c => negb (c =? DQUOTE) && negb (c =? DOLLAR)) s.

(** The request asks for a streamed answer. *)
Definition streams (rq : Request) : bool :=
  match rq with
  | PostChat _ _ s _ | PostGenerate _ _ s _ | PostCreate _ _ s
  | PostPull _ s | PostPush _ s => s
  | _ => false
  end.

(* ===================================================================== *)
(** ** Worlds to run the model in *)
(* ===================================================================== *)

Module Fixtures.

Definition version_body : Value := VObj [ ("version", str "0.5.1") ].

(** Nothing answers: every fetch is refused, no command starts, every
    port is free. *)
Definition silent : World := {|
  env_OLLAMA_HOST := None;
  env_RELAY_HOST := None;
  env_RELAY_PORT := None;
  ip_address := js "192.168.0.7";
  networkInterfaces :=
    [ ("lo", [ {| family := js "IPv4"; internal := true;
                  address := js "127.0.0.1" |} ]);
      ("eth0", [ {| family := js "IPv6"; internal := false;
                    address := js "fe80::1" |};
                 {| family := js "IPv4"; internal := false;
                    address := js "192.168.0.7" |} ]) ];
  fetch_reply := fun _ _ => FetchRejected (js "connect ECONNREFUSED");
  exec_reply := fun _ _ _ => ExecFailed SpawnError (js "spawn ollama ENOENT");
  sdk_reply := fun _ _ _ => Rejected (js "fetch failed");
  sdk_parts := fun _ _ _ => Rejected (js "fetch failed");
  sdk_models := fun _ _ => Rejected (js "fetch failed");
  port_free := fun _ _ => true
|}.

(** Only the server at [h] answers the version request. *)
Definition with_server (h : jstring) : World := {|
  env_OLLAMA_HOST := env_OLLAMA_HOST silent;
  env_RELAY_HOST := env_RELAY_HOST silent;
  env_RELAY_PORT := env_RELAY_PORT silent;
  ip_address := ip_address silent;
  networkInterfaces := networkInterfaces silent;
  fetch_reply := fun _ url =>
    if eqb_str url (h ++ js "/api/version")
    then FetchResponse true 200 (js "OK") (Some version_body)
    else FetchRejected (js "connect ECONNREFUSED");
  exec_reply := exec_reply silent;
  sdk_reply := fun _ _ _ => Resolved (VObj []);
  sdk_parts := fun _ _ _ => Resolved [];
  sdk_models := fun _ _ => Resolved [];
  port_free := port_free silent
|}.

(** No server, but every command exits with status 0 and prints [out]. *)
Definition with_cli (out : jstring) : World := {|
  env_OLLAMA_HOST := env_OLLAMA_HOST silent;
  env_RELAY_HOST := env_RELAY_HOST silent;
  env_RELAY_PORT := env_RELAY_PORT silent;
  ip_address := ip_address silent;
  networkInterfaces := networkInterfaces silent;
  fetch_reply := fetch_reply silent;
  exec_reply := fun _ _ _ => ExecDone out [];
  sdk_reply := sdk_reply silent;
  sdk_parts := sdk_parts silent;
  sdk_models := sdk_models silent;
  port_free := port_free silent
|}.

(** The operator configured the endpoint that is also the first default. *)
Definition configured_localhost : World := {|
  env_OLLAMA_HOST := Some (js "http://localhost:11434");
  env_RELAY_HOST := env_RELAY_HOST silent;
  env_RELAY_PORT := env_RELAY_PORT silent;
  ip_address := ip_address silent;
  networkInterfaces := networkInterfaces silent;
  fetch_reply := fetch_reply silent;
  exec_reply := exec_reply silent;
  sdk_reply := sdk_reply silent;
  sdk_parts := sdk_parts silent;
  sdk_models := sdk_models silent;
  port_free := port_free silent
|}.


(** Nothing answers and the machine has the loopback interface only. *)
Definition offline : World := {|
  env_OLLAMA_HOST := env_OLLAMA_HOST silent;
  env_RELAY_HOST := env_RELAY_HOST silent;
  env_RELAY_PORT := env_RELAY_PORT silent;
  ip_address := js "127.0.0.1";
  networkInterfaces :=
    [ ("lo", [ {| family := js "IPv4"; internal := true;
                  address := js "127.0.0.1" |};
               {| family := js "IPv6"; internal := true;
                  address := js "::1" |} ]) ];
  fetch_reply := fetch_reply silent;
  exec_reply := exec_reply silent;
  sdk_reply := sdk_reply silent;
  sdk_parts := sdk_parts silent;
  sdk_models := sdk_models silent;
  port_free := port_free silent
|}.

Definition no_config : Config :=
  {| cfg_host := None; cfg_port := None; cfg_ollamaHost := None |}.

(** The process after one call of [init] from the start, in world [w]. *)
Definition started (w : World) : Proc := snd (init 1 no_config w boot).

(** A process whose backend resolved to the CLI. *)
Definition cli_proc : Proc :=
  {| initiated := true; ollama := None; useCLI := true;
     activeOllamaHost := js "http://localhost:11434";
     host := js "192.168.0.7"; port := 8765; listening := Some 8765;
     trace := [] |}.

(** A process with no backend at all. *)
Definition down_proc : Proc :=
  {| initiated := true; ollama := None; useCLI := false;
     activeOllamaHost := js "http://localhost:11434";
     host := js "192.168.0.7"; port := 8765; listening := Some 8765;
     trace := [] |}.

Definition table : jstring :=
  js "NAME" ++ [9] ++ js "ID" ++ [9] ++ js "SIZE" ++ [9] ++ js "MODIFIED"
  ++ [LF] ++ js "llama3" ++ [9] ++ js "abc123" ++ [9] ++ js "4.1GB" ++ [9]
  ++ js "2 days ago" ++ [LF].

End Fixtures.

(* ===================================================================== *)
(** * Properties *)
(* ===================================================================== *)

(** ** The trace *)

Lemma trace_log_events (evs : list Event) (p : Proc) :
  trace (log_events evs p) = trace p ++ evs.
Proof.
  revert p. induction evs as [|e evs IH]; intro p; simpl.
  - now rewrite app_nil_r.
  - unfold log_events in IH. rewrite IH. simpl. now rewrite <- app_assoc.
Qed.

Lemma trace_checked (hosts : list jstring) (p : Proc) :
  trace (checked hosts p) = trace p ++ map version_request hosts.
Proof. apply trace_log_events. Qed.

Lemma checked_cons (h : jstring) (hosts : list jstring) (p : Proc) :
  checked (h :: hosts) p = checked hosts (checked [h] p).
Proof. reflexivity. Qed.

(** ** Endpoint prober *)

Section Prober.

Variable w : World.

(** A liveness check always resolves, to [alive], and costs one request. *)
Lemma testOllamaConnection_run (h : jstring) (p : Proc) :
  testOllamaConnection h w p = (Ok (alive w p h), checked [h] p).
Proof.
  unfold alive, testOllamaConnection, try_catch, bind, fetch, request, ret, throw.
  simpl.
  destruct (fetch_reply w (trace p) (h ++ js "/api/version"))
    as [msg | [|] st txt [[| | | | | |]|]]; reflexivity.
Qed.

Lemma probe_step (h : jstring) (rest : list jstring) (p : Proc) :
  probe (h :: rest) w p =
  if alive w p h then (Ok (Some h), checked [h] p)
  else probe rest w (checked [h] p).
Proof.
  simpl. unfold bind. rewrite testOllamaConnection_run.
  destruct (alive w p h); reflexivity.
Qed.

Lemma probe_exhausts (hosts : list jstring) (p : Proc) :
  (forall i h, nth_error hosts i = Some h ->
               alive w (checked (firstn i hosts) p) h = false) ->
  probe hosts w p = (Ok None, checked hosts p).
Proof.
  revert p. induction hosts as [|h rest IH]; intros p Hdead.
  - reflexivity.
  - rewrite probe_step.
    assert (H0 : alive w p h = false) by exact (Hdead 0%nat h eq_refl).
    rewrite H0, checked_cons. apply IH. intros i h' Hi.
    apply (Hdead (S i) h' Hi).
Qed.

Lemma probe_stops (hosts : list jstring) (k : nat) (url : jstring) (p : Proc) :
  nth_error hosts k = Some url ->
  (forall i h, (i < k)%nat -> nth_error hosts i = Some h ->
               alive w (checked (firstn i hosts) p) h = false) ->
  alive w (checked (firstn k hosts) p) url = true ->
  probe hosts w p = (Ok (Some url), checked (firstn (S k) hosts) p).
Proof.
  revert k p. induction hosts as [|h rest IH]; intros k p Hk Hdead Hlive.
  - destruct k; discriminate.
  - rewrite probe_step. destruct k as [|k].
    + injection Hk as ->.
      assert (H0 : alive w p url = true) by exact Hlive.
      rewrite H0. reflexivity.
    + assert (H0 : alive w p h = false)
        by exact (Hdead 0%nat h (Nat.lt_0_succ k) eq_refl).
      rewrite H0.
      change (firstn (S (S k)) (h :: rest)) with (h :: firstn (S k) rest).
      rewrite checked_cons. apply IH.
      * exact Hk.
      * intros i h' Hi Hn. apply (Hdead (S i) h'); [lia | exact Hn].
      * exact Hlive.
Qed.

(** C1.  Whatever the candidate list: when its k-th URL is the first whose
    liveness check succeeds, the prober returns that URL, and the requests
    it has made are the liveness checks of the candidates 0..k in list
    order, none beyond k; when every check fails (or the list is empty) it
    returns null after checking every candidate once, in order.
    [findWorkingOllamaHost] is this loop over the list built at startup. *)
Theorem probe_returns_first_responsive (hosts : list jstring) (p : Proc) :
  (forall k url,
     nth_error hosts k = Some url ->
     (forall i h, (i < k)%nat -> nth_error hosts i = Some h ->
                  alive w (checked (firstn i hosts) p) h = false) ->
     alive w (checked (firstn k hosts) p) url = true ->
     fst (probe hosts w p) = Ok (Some url)
     /\ same_vars p (snd (probe hosts w p))
     /\ trace (snd (probe hosts w p))
        = trace p ++ map version_request (firstn (S k) hosts))
  /\ ((forall i h, nth_error hosts i = Some h ->
                   alive w (checked (firstn i hosts) p) h = false) ->
      fst (probe hosts w p) = Ok None
      /\ same_vars p (snd (probe hosts w p))
      /\ trace (snd (probe hosts w p)) = trace p ++ map version_request hosts)
  /\ findWorkingOllamaHost w p = probe (possibleHosts w) w p.
Proof.
  assert (Hsame : forall l, same_vars p (checked l p)).
  { intro l. unfold checked. generalize (map version_request l) as evs.
    intro evs. revert p. induction evs as [|e evs IH]; intro q.
    - repeat split.
    - specialize (IH (log_event e q)). unfold same_vars in *. simpl in *.
      exact IH. }
  split; [|split].
  - intros k url Hk Hdead Hlive.
    rewrite (probe_stops hosts k url p Hk Hdead Hlive). simpl.
    split; [reflexivity|]. split; [apply Hsame | apply trace_checked].
  - intros Hdead. rewrite (probe_exhausts hosts p Hdead). simpl.
    split; [reflexivity|]. split; [apply Hsame | apply trace_checked].
  - reflexivity.
Qed.

End Prober.

Import Fixtures.

Lemma probe_returns_first_responsive_witness :
  (fst (probe [js "http://a"; js "http://b"; js "http://c"]
          (with_server (js "http://b")) boot) = Ok (Some (js "http://b"))
   /\ same_vars boot
        (snd (probe [js "http://a"; js "http://b"; js "http://c"]
                (with_server (js "http://b")) boot))
   /\ trace (snd (probe [js "http://a"; js "http://b"; js "http://c"]
                    (with_server (js "http://b")) boot))
      = trace boot
        ++ map version_request
             (firstn 2 [js "http://a"; js "http://b"; js "http://c"]))
  /\ (fst (probe [js "http://a"; js "http://c"]
             (with_server (js "http://b")) boot) = Ok None
      /\ same_vars boot
           (snd (probe [js "http://a"; js "http://c"]
                   (with_server (js "http://b")) boot))
      /\ trace (snd (probe [js "http://a"; js "http://c"]
                       (with_server (js "http://b")) boot))
         = trace boot ++ map version_request [js "http://a"; js "http://c"]).
Proof.
  split.
  - apply (proj1 (probe_returns_first_responsive (with_server (js "http://b"))
                    [js "http://a"; js "http://b"; js "http://c"] boot)
             1%nat (js "http://b")).
    + reflexivity.
    + intros i h Hi Hn. destruct i as [|i]; [|lia].
      injection Hn as <-. reflexivity.
    + reflexivity.
  - apply (proj1 (proj2 (probe_returns_first_responsive
                           (with_server (js "http://b"))
                           [js "http://a"; js "http://c"] boot))).
    intros i h Hn.
    destruct i as [|[|i]]; simpl in Hn.
    + injection Hn as <-. reflexivity.
    + injection Hn as <-. reflexivity.
    + destruct i; discriminate.
Defined.

(** ** Computations that assign no variable *)

Lemma same_vars_refl (p : Proc) : same_vars p p.
Proof. repeat split. Qed.

Lemma same_vars_trans (p q r : Proc) :
  same_vars p q -> same_vars q r -> same_vars p r.
Proof.
  unfold same_vars. intros (A1 & A2 & A3 & A4 & A5 & A6 & A7)
    (B1 & B2 & B3 & B4 & B5 & B6 & B7).
  repeat split; congruence.
Qed.

Lemma same_vars_log (e : Event) (p : Proc) : same_vars p (log_event e p).
Proof. repeat split. Qed.

Lemma same_vars_mode (p q : Proc) : same_vars p q -> mode q = mode p.
Proof.
  unfold same_vars, mode. intros (_ & -> & -> & _). reflexivity.
Qed.

Lemma frames_ret {A} (a : A) : frames (ret a).
Proof. intros w p. apply same_vars_refl. Qed.

Lemma frames_throw {A} (e : JsError) : frames (@throw A e).
Proof. intros w p. apply same_vars_refl. Qed.

Lemma frames_read {A} (f : Proc -> A) : frames (read f).
Proof. intros w p. apply same_vars_refl. Qed.

Lemma frames_ask {A} (f : World -> A) : frames (ask f).
Proof. intros w p. apply same_vars_refl. Qed.

Lemma frames_request {A} (e : Event) (reply : World -> Trace -> A) :
  frames (request e reply).
Proof. intros w p. apply same_vars_log. Qed.

Lemma frames_bind {A B} (m : Eff A) (k : A -> Eff B) :
  frames m -> (forall a, frames (k a)) -> frames (bind m k).
Proof.
  intros Hm Hk w p. unfold bind. specialize (Hm w p).
  destruct (m w p) as [[a|e|] q]; simpl in *; try exact Hm.
  eapply same_vars_trans; [exact Hm | apply Hk].
Qed.

Lemma frames_try_catch {A} (m : Eff A) (handler : JsError -> Eff A) :
  frames m -> (forall e, frames (handler e)) -> frames (try_catch m handler).
Proof.
  intros Hm Hh w p. unfold try_catch. specialize (Hm w p).
  destruct (m w p) as [[a|e|] q]; simpl in *; try exact Hm.
  eapply same_vars_trans; [exact Hm | apply Hh].
Qed.

Create HintDb frames.
#[local] Hint Resolve frames_ret frames_throw frames_read frames_ask
  frames_request : frames.

(** Takes a computation apart down to calls whose frame is known. *)
Ltac frame :=
  repeat first
    [ solve [auto with frames]
    | apply frames_bind; [| intro]
    | apply frames_try_catch; [| intro]
    | match goal with
      | |- frames (match ?x with _ => _ end) => destruct x
      end ].

Lemma frames_execAsync command opts : frames (execAsync command opts).
Proof. unfold execAsync. frame. Qed.

Lemma frames_sdk h call : frames (sdk h call).
Proof. unfold sdk, of_answer. frame. Qed.

Lemma frames_sdk_stream h call : frames (sdk_stream h call).
Proof. unfold sdk_stream, of_answer. frame. Qed.

Lemma frames_sdk_list h : frames (sdk_list h).
Proof. unfold sdk_list, of_answer. frame. Qed.

#[local] Hint Resolve frames_execAsync frames_sdk frames_sdk_stream
  frames_sdk_list : frames.

Lemma frames_testOllamaConnection h : frames (testOllamaConnection h).
Proof. unfold testOllamaConnection, fetch. frame. Qed.

#[local] Hint Resolve frames_testOllamaConnection : frames.

Lemma frames_probe hosts : frames (probe hosts).
Proof. induction hosts as [|h rest IH]; simpl; frame. Qed.

#[local] Hint Resolve frames_probe : frames.

Lemma frames_findWorkingOllamaHost : frames findWorkingOllamaHost.
Proof. unfold findWorkingOllamaHost. frame. Qed.

Lemma frames_testOllamaCLI : frames testOllamaCLI.
Proof. unfold testOllamaCLI. frame. Qed.

Lemma frames_getModelsViaCLI : frames getModelsViaCLI.
Proof. unfold getModelsViaCLI, rethrow. frame. Qed.

Lemma frames_chatViaCLI model messages : frames (chatViaCLI model messages).
Proof. unfold chatViaCLI, rethrow. frame. Qed.

Lemma frames_generateViaCLI model prompt : frames (generateViaCLI model prompt).
Proof. unfold generateViaCLI, rethrow. frame. Qed.

Lemma frames_find_port fuel n : frames (find_port fuel n).
Proof.
  revert n. induction fuel as [|fuel IH]; intro n; simpl.
  - intros w p. apply same_vars_refl.
  - unfold testPort. frame.
Qed.

#[local] Hint Resolve frames_findWorkingOllamaHost frames_testOllamaCLI
  frames_getModelsViaCLI frames_chatViaCLI frames_generateViaCLI
  frames_find_port : frames.

Lemma frames_checkOllamaConnection next :
  frames next -> frames (checkOllamaConnection next).
Proof. intro H. unfold checkOllamaConnection. frame. Qed.

Lemma frames_mode_label : frames mode_label.
Proof. unfold mode_label. frame. Qed.

#[local] Hint Resolve frames_mode_label : frames.

Lemma frames_http_only hint serve :
  (forall h, frames (serve h)) -> frames (http_only hint serve).
Proof. intro H. unfold http_only. frame. Qed.

(** No route handler assigns [ollama], [useCLI] or [activeOllamaHost]
    (or any other variable of the process). *)
Lemma frames_handle (rq : Request) : frames (handle rq).
Proof.
  destruct rq; simpl;
    unfold get_models, post_chat, post_generate, post_create, delete_model,
      post_copy, get_model, post_pull, post_push, post_embeddings, get_status,
      completion_failed;
    first [ apply frames_checkOllamaConnection;
            first [ apply frames_http_only; intro | idtac ]
          | idtac ];
    frame.
Qed.

(** ** init *)

Lemma init_again fuel config w p :
  initiated p = true -> init fuel config w p = (Ok Undefined, p).
Proof.
  intro H. unfold init, bind, read. rewrite H. reflexivity.
Qed.

Lemma default_to_ask {A} (given : option A) (f : World -> A) w p :
  default_to given (ask f) w p
  = (Ok (match given with Some a => a | None => f w end), p).
Proof. destruct given; reflexivity. Qed.

(** One step of running [init] by hand: the next call is replaced by its
    outcome and what its frame says of the state it leaves; the next
    test is decided both ways. *)
Ltac run_call :=
  match goal with
  | |- context [match ?m ?w ?p with _ => _ end] =>
      let F := fresh "F" in
      assert (F : same_vars p (snd (m w p)))
        by (first [ apply frames_findWorkingOllamaHost | apply frames_sdk_list
                  | apply frames_testOllamaCLI | apply frames_getModelsViaCLI
                  | apply frames_find_port ]);
      destruct (m w p) as [[?|?|] ?];
      unfold same_vars in F; simpl in F;
      destruct F as (? & ? & ? & ? & ? & ? & ?)
  | |- context [match ?a with Some _ => _ | None => _ end] =>
      is_var a; destruct a
  | |- context [is_null (ollama ?p)] =>
      let E := fresh "E" in destruct (ollama p) eqn:E; simpl in E; simpl
  | |- context [if ?b then _ else _] => is_var b; destruct b
  end.

(** Rewrites the fields of later states into those of earlier ones. *)
Ltac chase :=
  repeat match goal with
         | E : ?l = _ |- context [?l] => rewrite E
         end.

(** A first call of [init] that returns has set the flag, listens, and
    leaves at most one of the two transports in place. *)
Lemma init_fresh fuel config w p r q :
  initiated p = false ->
  init fuel config w p = (Ok r, q) ->
  r = AppDb /\ initiated q = true /\ listening q <> None
  /\ http_active q && cli_active q = false.
Proof.
  intros H. unfold init.
  unfold bind at 1, read at 1. rewrite H.
  unfold bind at 1, write at 1.
  do 3 (unfold bind at 1; rewrite default_to_ask).
  cbv [bind read write ret try_catch].
  repeat (run_call; try discriminate).
  all: intro R; injection R as <- <-; unfold http_active, cli_active; simpl.
  all: chase; try congruence.
  all: repeat split; try reflexivity; try congruence.
  all: destruct (useCLI p); reflexivity.
Qed.

Lemma init_returned fuel config w p r q :
  init fuel config w p = (Ok r, q) -> initiated q = true.
Proof.
  intro H. destruct (initiated p) eqn:E.
  - rewrite (init_again fuel config w p E) in H. injection H as _ <-. exact E.
  - apply (init_fresh fuel config w p r q E H).
Qed.

Lemma init_AppDb_fresh fuel config w p q :
  init fuel config w p = (Ok AppDb, q) -> initiated p = false.
Proof.
  intro H. destruct (initiated p) eqn:E; [|reflexivity].
  rewrite (init_again fuel config w p E) in H. discriminate.
Qed.

(** C2 (as amended).  Once a call of [init] has returned, every later call,
    whatever its configuration, returns [undefined] (it hands back no
    mode), and leaves the whole process as it was: the resolved mode
    stands, and the trace gains no request, so neither the prober nor the
    CLI probe has run again. *)
Theorem init_runs_once w fuel config p r q :
  init fuel config w p = (Ok r, q) ->
  forall w' fuel' config',
    init fuel' config' w' q = (Ok Undefined, q)
    /\ mode (snd (init fuel' config' w' q)) = mode q
    /\ trace (snd (init fuel' config' w' q)) = trace q.
Proof.
  intros H w' fuel' config'.
  rewrite (init_again fuel' config' w' q (init_returned _ _ _ _ _ _ H)).
  repeat split.
Qed.

Lemma init_runs_once_witness :
  init 3 no_config silent (started silent) = (Ok Undefined, started silent)
  /\ mode (snd (init 3 no_config silent (started silent)))
     = mode (started silent)
  /\ trace (snd (init 3 no_config silent (started silent)))
     = trace (started silent).
Proof.
  apply (init_runs_once silent 1%nat no_config boot AppDb (started silent)).
  vm_compute. reflexivity.
Defined.

(** C2 as stated fails: the first call resolves the backend (here to
    Unavailable) and hands back the app; the second call hands back nothing,
    so it does not return the resolved mode. *)
Lemma init_second_call_returns_undefined :
  resolves_to (init 1 no_config silent boot) Unavailable
  /\ fst (init 1 no_config silent (started silent)) = Ok Undefined
  /\ ~ resolves_to (init 1 no_config silent (started silent)) Unavailable.
Proof.
  split; [|split].
  - split; vm_compute; reflexivity.
  - vm_compute. reflexivity.
  - intros [H _]. vm_compute in H. discriminate.
Qed.

(** ** The resolved backend stays *)

Lemma frames_step_serve (rq : Request) : frames (step (Serve rq)).
Proof.
  unfold step. pose proof (frames_handle rq). frame.
Qed.

Lemma step_same_vars w op p :
  initiated p = true -> same_vars p (snd (step op w p)).
Proof.
  intro H. destruct op as [fuel config | rq].
  - unfold step, bind. rewrite (init_again fuel config w p H). simpl.
    apply same_vars_refl.
  - apply frames_step_serve.
Qed.

Lemma run_same_vars w ops p :
  initiated p = true -> same_vars p (run w ops p).
Proof.
  revert p. induction ops as [|op rest IH]; intros p H; simpl.
  - apply same_vars_refl.
  - pose proof (step_same_vars w op p H) as S1.
    eapply same_vars_trans; [exact S1|].
    apply IH. destruct S1 as (-> & _). exact H.
Qed.

(** C8.  When [init] has completed (it returned the app): exactly one of
    the three modes is the active one; not both the network client and the
    CLI are in place, then and after any later operations; and whatever
    operations follow (requests of any route, further calls of [init]),
    [ollama], [useCLI] and [activeOllamaHost] keep the values [init] left,
    and so does the mode. *)
Theorem backend_fixed_after_init w fuel config p q :
  init fuel config w p = (Ok AppDb, q) ->
  ((http_active q = true /\ cli_active q = false /\ unavailable q = false)
   \/ (http_active q = false /\ cli_active q = true /\ unavailable q = false)
   \/ (http_active q = false /\ cli_active q = false /\ unavailable q = true))
  /\ http_active q && cli_active q = false
  /\ forall ops,
       ollama (run w ops q) = ollama q
       /\ useCLI (run w ops q) = useCLI q
       /\ activeOllamaHost (run w ops q) = activeOllamaHost q
       /\ mode (run w ops q) = mode q
       /\ http_active (run w ops q) && cli_active (run w ops q) = false.
Proof.
  intro H.
  destruct (init_fresh fuel config w p AppDb q (init_AppDb_fresh _ _ _ _ _ H) H)
    as (_ & Hi & _ & Hone).
  split; [|split].
  - unfold http_active, cli_active, unavailable in *.
    destruct (ollama q), (useCLI q); simpl in *; try discriminate; auto.
  - exact Hone.
  - intro ops. pose proof (run_same_vars w ops q Hi) as S1.
    pose proof (same_vars_mode _ _ S1) as M.
    destruct S1 as (_ & A & B & C & _).
    unfold http_active, cli_active in *. rewrite A, B. auto.
Qed.

Lemma backend_fixed_after_init_witness :
  ((http_active (started (with_cli table)) = true
    /\ cli_active (started (with_cli table)) = false
    /\ unavailable (started (with_cli table)) = false)
   \/ (http_active (started (with_cli table)) = false
       /\ cli_active (started (with_cli table)) = true
       /\ unavailable (started (with_cli table)) = false)
   \/ (http_active (started (with_cli table)) = false
       /\ cli_active (started (with_cli table)) = false
       /\ unavailable (started (with_cli table)) = true))
  /\ http_active (started (with_cli table))
     && cli_active (started (with_cli table)) = false
  /\ forall ops,
       ollama (run (with_cli table) ops (started (with_cli table)))
       = ollama (started (with_cli table))
       /\ useCLI (run (with_cli table) ops (started (with_cli table)))
          = useCLI (started (with_cli table))
       /\ activeOllamaHost (run (with_cli table) ops (started (with_cli table)))
          = activeOllamaHost (started (with_cli table))
       /\ mode (run (with_cli table) ops (started (with_cli table)))
          = mode (started (with_cli table))
       /\ http_active (run (with_cli table) ops (started (with_cli table)))
          && cli_active (run (with_cli table) ops (started (with_cli table)))
          = false.
Proof.
  apply (backend_fixed_after_init (with_cli table) 1%nat no_config boot
           (started (with_cli table))).
  vm_compute. reflexivity.
Defined.

(** ** Candidate list *)

Lemma filter_Boolean_some (s : jstring) (l : list (option jstring)) :
  truthy s = true -> filter_Boolean (Some s :: l) = s :: filter_Boolean l.
Proof. intro H. unfold filter_Boolean. simpl. rewrite H. reflexivity. Qed.

Lemma filter_Boolean_configured (w : World) (l : list (option jstring)) :
  filter_Boolean (env_OLLAMA_HOST w :: l) = configured w ++ filter_Boolean l.
Proof.
  unfold filter_Boolean, configured. simpl.
  destruct (env_OLLAMA_HOST w) as [[|c t]|]; reflexivity.
Qed.

Lemma possibleHosts_groups (w : World) :
  possibleHosts w
  = configured w ++ loopback_hosts ++ [lan_host w] ++ [wildcard_host]
    ++ remote_fallbacks ++ container_gateways ++ private_gateways.
Proof.
  unfold possibleHosts. rewrite filter_Boolean_configured.
  repeat (rewrite filter_Boolean_some; [|reflexivity]).
  reflexivity.
Qed.

(** C3 (as amended).  The list built at startup holds no undefined and no
    empty entry and is, in this order: the configured endpoint (when the
    variable is set and not empty), localhost and 127.0.0.1, the address
    built from the discovered LAN address, 0.0.0.0, the three known remote
    hosts, the three container gateways, and last the two private-network
    gateways.  Nothing removes repeated entries. *)
Theorem candidate_list_order (w : World) :
  possibleHosts w
  = configured w ++ loopback_hosts ++ [lan_host w] ++ [wildcard_host]
    ++ remote_fallbacks ++ container_gateways ++ private_gateways
  /\ Forall (fun h => truthy h = true) (possibleHosts w)
  /\ (forall h, configured w = [h] <-> env_OLLAMA_HOST w = Some h /\ h <> []).
Proof.
  split; [apply possibleHosts_groups|]. split.
  - rewrite possibleHosts_groups. apply Forall_app. split.
    + unfold configured.
      destruct (env_OLLAMA_HOST w) as [[|c t]|]; repeat constructor.
    + repeat (apply Forall_cons; [reflexivity|]). apply Forall_nil.
  - intro h. unfold configured.
    destruct (env_OLLAMA_HOST w) as [[|c t]|]; split;
      try discriminate; try (intros [E N]; congruence).
    intro E. injection E as <-. split; [reflexivity | discriminate].
Qed.

(** C3 as stated fails twice: with the configured endpoint equal to the
    first default the list holds that URL twice, and in every list the
    remote host a.talkflow.team stands before host.docker.internal. *)
Lemma candidate_list_repeats_and_remote_not_last :
  ~ NoDup (possibleHosts configured_localhost)
  /\ ~ remote_fallbacks_last (possibleHosts configured_localhost)
  /\ nth_error (possibleHosts configured_localhost) 0
     = Some (js "http://localhost:11434")
  /\ nth_error (possibleHosts configured_localhost) 1
     = Some (js "http://localhost:11434").
Proof.
  split; [|split; [|split]].
  - intro H. vm_compute in H.
    inversion H as [|x l Hnot _]. apply Hnot. left. reflexivity.
  - intro H.
    specialize (H 7%nat 8%nat (js "https://a.talkflow.team")
                  (js "http://host.docker.internal:11434")).
    assert (8 < 7)%nat; [|lia].
    apply H.
    + vm_compute. reflexivity.
    + right. right. left. reflexivity.
    + vm_compute. reflexivity.
    + left. reflexivity.
  - vm_compute. reflexivity.
  - vm_compute. reflexivity.
Qed.

(** ** CLI capability probe *)

Lemma testOllamaCLI_run (w : World) (p : Proc) :
  testOllamaCLI w p
  = (Ok (exits_zero (exec_reply w (trace p) (js "ollama --version")
                       version_options)),
     log_event (Exec (js "ollama --version") version_options) p).
Proof.
  unfold testOllamaCLI, execAsync, try_catch, bind, request, ret, throw.
  fold version_options.
  destruct (exec_reply w (trace p) (js "ollama --version") version_options);
    reflexivity.
Qed.

(** C4 (as amended).  The probe runs [ollama --version] once with the 5 s
    timeout and returns true if and only if the command exits with status
    0 within it, whatever it printed (empty output included); a non-zero
    exit, the timeout or a command that does not start give false. *)
Theorem cli_probe_true_iff_exit_zero (w : World) (p : Proc) :
  fst (testOllamaCLI w p)
  = Ok (exits_zero (exec_reply w (trace p) (js "ollama --version")
                      version_options))
  /\ (fst (testOllamaCLI w p) = Ok true
      <-> exists out err,
            exec_reply w (trace p) (js "ollama --version") version_options
            = ExecDone out err)
  /\ trace (snd (testOllamaCLI w p))
     = trace p ++ [Exec (js "ollama --version") version_options]
  /\ timeout version_options = 5000.
Proof.
  rewrite testOllamaCLI_run. simpl.
  split; [reflexivity|]. split; [|split; reflexivity].
  destruct (exec_reply w (trace p) (js "ollama --version") version_options)
    as [out err | why msg]; simpl; split.
  - intros _. now exists out, err.
  - reflexivity.
  - discriminate.
  - intros (out & err & E). discriminate.
Qed.

(** C4 as stated fails: a version command that exits with status 0 and
    prints nothing makes the probe return true. *)
Lemma cli_probe_accepts_empty_output :
  exec_reply (with_cli []) (trace boot) (js "ollama --version") version_options
  = ExecDone [] []
  /\ fst (testOllamaCLI (with_cli []) boot) = Ok true
  /\ fst (testOllamaCLI (with_cli []) boot)
     <> Ok (exits_zero_with_output
              (exec_reply (with_cli []) (trace boot) (js "ollama --version")
                 version_options)).
Proof.
  split; [reflexivity|]. split; [reflexivity|].
  vm_compute. discriminate.
Qed.

(** ** Requests under the CLI transport and with no backend *)

Lemma mode_cli (p : Proc) :
  mode p = CliFallback -> ollama p = None /\ useCLI p = true.
Proof.
  unfold mode. destruct (ollama p), (useCLI p); try discriminate. auto.
Qed.

Lemma mode_down (p : Proc) :
  mode p = Unavailable -> ollama p = None /\ useCLI p = false.
Proof.
  unfold mode. destruct (ollama p), (useCLI p); try discriminate. auto.
Qed.

(** C6.  Under CliFallback a chat or generate request with stream = true
    is answered with the streaming rejection, status 400, and the process,
    its trace included, is as before: no subprocess was started. *)
Theorem streaming_rejected_under_cli (w : World) (p : Proc)
    (model prompt : jstring) (messages : list Message) (options : Value) :
  mode p = CliFallback ->
  handle (PostChat model messages true options) w p = (Ok streaming_rejected, p)
  /\ handle (PostGenerate model prompt true options) w p
     = (Ok streaming_rejected, p)
  /\ status_of streaming_rejected = Some 400.
Proof.
  intro M. destruct (mode_cli p M) as [Ho Hc].
  unfold handle, post_chat, post_generate, checkOllamaConnection, try_catch,
    bind, read, ret.
  repeat (rewrite ?Ho, ?Hc; simpl). split; [|split]; reflexivity.
Qed.

Lemma streaming_rejected_under_cli_witness :
  handle (PostChat (js "llama3") [ {| role := js "user"; content := js "hi" |} ]
            true VUndefined) silent cli_proc
  = (Ok streaming_rejected, cli_proc)
  /\ handle (PostGenerate (js "llama3") (js "hi") true VUndefined) silent cli_proc
     = (Ok streaming_rejected, cli_proc)
  /\ status_of streaming_rejected = Some 400.
Proof.
  apply (streaming_rejected_under_cli silent cli_proc).
  reflexivity.
Defined.

(** C7.  Under CliFallback every management request (create, delete,
    copy, show, pull, push) and embeddings is answered with the HTTP-only
    rejection, status 400, the process and its trace left as they were: no
    command, no network call.  With no backend at all the same requests
    get the service-unavailable answer, status 503, which is a different
    answer: the caller can tell the two cases apart. *)
Theorem management_rejected_under_cli (w : World) (rq : Request) (p q : Proc) :
  is_management rq = true ->
  mode p = CliFallback ->
  mode q = Unavailable ->
  (exists hint, handle rq w p = (Ok (http_only_rejected hint), p)
                /\ status_of (http_only_rejected hint) = Some 400
                /\ http_only_rejected hint <> service_unavailable)
  /\ handle rq w q = (Ok service_unavailable, q)
  /\ status_of service_unavailable = Some 503.
Proof.
  intros Hm Mp Mq.
  destruct (mode_cli p Mp) as [Ho Hc]. destruct (mode_down q Mq) as [Ho' Hc'].
  destruct rq; try discriminate Hm;
    unfold handle, post_create, delete_model, post_copy, get_model, post_pull,
      post_push, post_embeddings, checkOllamaConnection, http_only, bind,
      read, ret;
    repeat (rewrite ?Ho, ?Hc, ?Ho', ?Hc'; simpl);
    (split; [eexists; split; [reflexivity|]; split; [reflexivity|discriminate]
            | split; reflexivity]).
Qed.

Lemma management_rejected_under_cli_witness :
  (exists hint,
      handle (DeleteModel (js "llama3")) silent cli_proc
      = (Ok (http_only_rejected hint), cli_proc)
      /\ status_of (http_only_rejected hint) = Some 400
      /\ http_only_rejected hint <> service_unavailable)
  /\ handle (DeleteModel (js "llama3")) silent down_proc
     = (Ok service_unavailable, down_proc)
  /\ status_of service_unavailable = Some 503.
Proof.
  apply (management_rejected_under_cli silent (DeleteModel (js "llama3"))
           cli_proc down_proc); reflexivity.
Defined.

(** ** The prompt handed to the shell *)

Lemma escape_prompt_chars (s : jstring) :
  escape_prompt s = flat_map escape_char s.
Proof.
  unfold escape_prompt, replace_all.
  set (quote := fun x => if x =? DQUOTE then [BACKSLASH; DQUOTE] else [x]).
  set (dollar := fun x => if x =? DOLLAR then [BACKSLASH; DOLLAR] else [x]).
  induction s as [|c s IH]; [reflexivity|].
  change (flat_map dollar (quote c ++ flat_map quote s)
          = escape_char c ++ flat_map escape_char s).
  rewrite flat_map_app, IH. f_equal.
  unfold quote, dollar, escape_char.
  destruct (N.eqb_spec c DQUOTE) as [->|_]; [reflexivity|].
  simpl. destruct (c =? DOLLAR); reflexivity.
Qed.

Lemma item_last {A : Type} (earlier : list A) (m : A) :
  item (earlier ++ [m]) (Z.of_nat (List.length (earlier ++ [m])) - 1) = Some m.
Proof.
  unfold item. rewrite length_app. simpl.
  replace (Z.of_nat (List.length earlier + 1) - 1)%Z
    with (Z.of_nat (List.length earlier)) by lia.
  destruct (Z.ltb_spec (Z.of_nat (List.length earlier)) 0); [lia|].
  rewrite Nat2Z.id, nth_error_app2, Nat.sub_diag by lia. reflexivity.
Qed.

Lemma chatViaCLI_run w p model earlier m :
  chatViaCLI model (earlier ++ [m]) w p
  = (cli_result "CLI Chat Error: " chat_envelope
       (exec_reply w (trace p)
          (run_command (escape_prompt (content m)) model) run_options),
     log_event (Exec (run_command (escape_prompt (content m)) model)
                  run_options) p).
Proof.
  unfold chatViaCLI. rewrite item_last.
  unfold execAsync, try_catch, bind, request, ret, throw, rethrow. simpl.
  destruct (exec_reply w (trace p)
              (run_command (escape_prompt (content m)) model) run_options);
    reflexivity.
Qed.

Lemma generateViaCLI_run w p model prompt :
  generateViaCLI model prompt w p
  = (cli_result "CLI Generate Error: " generate_envelope
       (exec_reply w (trace p)
          (run_command (escape_prompt prompt) model) run_options),
     log_event (Exec (run_command (escape_prompt prompt) model)
                  run_options) p).
Proof.
  unfold generateViaCLI.
  unfold execAsync, try_catch, bind, request, ret, throw, rethrow. simpl.
  destruct (exec_reply w (trace p)
              (run_command (escape_prompt prompt) model) run_options);
    reflexivity.
Qed.

Lemma chatViaCLI_empty w p model :
  chatViaCLI model [] w p
  = (Throw {| cause := TypeErr;
              message := js "CLI Chat Error: " ++ message no_content |}, p).
Proof. reflexivity. Qed.

(** The chat route under the CLI transport, [stream] false. *)
Lemma post_chat_cli w p model messages options :
  mode p = CliFallback ->
  handle (PostChat model messages false options) w p
  = match chatViaCLI model messages w p with
    | (Ok response, q) => (Ok (Sent 200 response), q)
    | (Throw error, q) => completion_failed model error w q
    | (Running, q) => (Running, q)
    end.
Proof.
  intro M. destruct (mode_cli p M) as [Ho Hc].
  unfold handle, post_chat, checkOllamaConnection.
  cbv [bind read try_catch ret].
  repeat (rewrite ?Ho, ?Hc; cbv beta iota delta [is_null negb andb]).
  destruct (chatViaCLI model messages w p) as [[v|e|] q]; reflexivity.
Qed.

Lemma post_generate_cli w p model prompt options :
  mode p = CliFallback ->
  handle (PostGenerate model prompt false options) w p
  = match generateViaCLI model prompt w p with
    | (Ok response, q) => (Ok (Sent 200 response), q)
    | (Throw error, q) => completion_failed model error w q
    | (Running, q) => (Running, q)
    end.
Proof.
  intro M. destruct (mode_cli p M) as [Ho Hc].
  unfold handle, post_generate, checkOllamaConnection.
  cbv [bind read try_catch ret].
  repeat (rewrite ?Ho, ?Hc; cbv beta iota delta [is_null negb andb]).
  destruct (generateViaCLI model prompt w p) as [[v|e|] q]; reflexivity.
Qed.

Lemma completion_failed_run model error w q :
  exists body, completion_failed model error w q = (Ok (Sent 500 body), q).
Proof.
  unfold completion_failed, mode_label. cbv [bind read ret].
  eexists. reflexivity.
Qed.

(** C9.  For a chat request (the text is the content of the last message)
    and for a generate request (the text is the prompt) served by the CLI
    transport, the one command handed to bash is
    [echo "<text'>" | ollama run <model>], where [text'] is the text with
    every double quote replaced by backslash double-quote, every dollar by
    backslash dollar, and every other code unit kept; a backtick and a
    backslash are kept as they are. *)
Theorem cli_prompt_escaping (w : World) (p : Proc) (model prompt : jstring)
    (earlier : list Message) (m : Message) (options : Value) :
  mode p = CliFallback ->
  trace (snd (handle (PostChat model (earlier ++ [m]) false options) w p))
  = trace p
    ++ [Exec (js "echo " ++ [DQUOTE] ++ flat_map escape_char (content m)
              ++ [DQUOTE] ++ js " | ollama run " ++ model) run_options]
  /\ trace (snd (handle (PostGenerate model prompt false options) w p))
     = trace p
       ++ [Exec (js "echo " ++ [DQUOTE] ++ flat_map escape_char prompt
                 ++ [DQUOTE] ++ js " | ollama run " ++ model) run_options]
  /\ shell run_options = Some (js "/bin/bash")
  /\ escape_char DQUOTE = [BACKSLASH; DQUOTE]
  /\ escape_char DOLLAR = [BACKSLASH; DOLLAR]
  /\ (forall c, c <> DQUOTE -> c <> DOLLAR -> escape_char c = [c])
  /\ escape_char BACKTICK = [BACKTICK]
  /\ escape_char BACKSLASH = [BACKSLASH].
Proof.
  intro M. split; [|split].
  - rewrite (post_chat_cli w p model _ options M), chatViaCLI_run.
    rewrite escape_prompt_chars. unfold cli_result.
    destruct (exec_reply w (trace p) _ run_options) as [out err|why msg].
    + reflexivity.
    + destruct (completion_failed_run model
                  {| cause := ExecErr why;
                     message := js "CLI Chat Error: " ++ msg |} w
                  (log_event
                     (Exec (run_command (flat_map escape_char (content m)) model)
                        run_options) p)) as [body ->].
      reflexivity.
  - rewrite (post_generate_cli w p model _ options M), generateViaCLI_run.
    rewrite escape_prompt_chars. unfold cli_result.
    destruct (exec_reply w (trace p) _ run_options) as [out err|why msg].
    + reflexivity.
    + destruct (completion_failed_run model
                  {| cause := ExecErr why;
                     message := js "CLI Generate Error: " ++ msg |} w
                  (log_event
                     (Exec (run_command (flat_map escape_char prompt) model)
                        run_options) p)) as [body ->].
      reflexivity.
  - repeat split.
    intros c Hq Hd. unfold escape_char.
    destruct (N.eqb_spec c DQUOTE); [contradiction|].
    destruct (N.eqb_spec c DOLLAR); [contradiction|]. reflexivity.
Qed.

Lemma cli_prompt_escaping_witness :
  trace (snd (handle
                (PostChat (js "llama3")
                   ([ {| role := js "system"; content := js "be brief" |} ]
                    ++ [ {| role := js "user";
                            content := js "echo `id` \ $HOME" |} ])
                   false VUndefined)
                silent cli_proc))
  = trace cli_proc
    ++ [Exec (js "echo " ++ [DQUOTE] ++ js "echo `id` \ \$HOME" ++ [DQUOTE]
              ++ js " | ollama run " ++ js "llama3") run_options]
  /\ trace (snd (handle
                   (PostGenerate (js "llama3") (js "a$b") false VUndefined)
                   silent cli_proc))
     = trace cli_proc
       ++ [Exec (js "echo " ++ [DQUOTE] ++ js "a\$b" ++ [DQUOTE]
                 ++ js " | ollama run " ++ js "llama3") run_options].
Proof.
  pose proof (cli_prompt_escaping silent cli_proc (js "llama3") (js "a$b")
                [ {| role := js "system"; content := js "be brief" |} ]
                {| role := js "user"; content := js "echo `id` \ $HOME" |}
                VUndefined eq_refl) as (Hchat & Hgen & _).
  split; [exact Hchat | exact Hgen].
Defined.

(** ** Chat with no message *)

(** C10.  Under CliFallback, chat reads the last message unguarded.  With a
    message list that is not empty the local tool is run once and the
    result is the envelope or a failure of the command, which is one of the
    defined error kinds.  With the empty list reading [.content] of
    [undefined] throws a TypeError before any command is started: the
    caller gets neither an envelope (the answer has status 500, carrying
    the TypeError's text) nor one of the defined error kinds. *)
Theorem chat_needs_a_message (w : World) (p : Proc) (model : jstring)
    (options : Value) :
  mode p = CliFallback ->
  chatViaCLI model [] w p
  = (Throw {| cause := TypeErr;
              message := js "CLI Chat Error: " ++ message no_content |}, p)
  /\ kind_of_cause TypeErr = None
  /\ (exists body,
        handle (PostChat model [] false options) w p = (Ok (Sent 500 body), p))
  /\ forall earlier m,
       trace (snd (chatViaCLI model (earlier ++ [m]) w p))
       = trace p
         ++ [Exec (run_command (escape_prompt (content m)) model) run_options]
       /\ ((exists out,
              fst (chatViaCLI model (earlier ++ [m]) w p)
              = Ok (chat_envelope out))
           \/ (exists why msg,
                 fst (chatViaCLI model (earlier ++ [m]) w p)
                 = Throw {| cause := ExecErr why; message := msg |}
                 /\ kind_of_cause (ExecErr why) <> None)).
Proof.
  intro M. split; [reflexivity|]. split; [reflexivity|]. split.
  - rewrite (post_chat_cli w p model [] options M), chatViaCLI_empty.
    apply completion_failed_run.
  - intros earlier m. rewrite chatViaCLI_run. simpl.
    split; [reflexivity|].
    destruct (exec_reply w (trace p)
                (run_command (escape_prompt (content m)) model) run_options)
      as [out err|why msg]; simpl.
    + left. now exists out.
    + right. exists why, (js "CLI Chat Error: " ++ msg).
      split; [reflexivity|]. destruct why; discriminate.
Qed.

Lemma chat_needs_a_message_witness :
  chatViaCLI (js "llama3") [] silent cli_proc
  = (Throw {| cause := TypeErr;
              message := js "CLI Chat Error: " ++ message no_content |},
     cli_proc)
  /\ exists body,
       handle (PostChat (js "llama3") [] false VUndefined) silent cli_proc
       = (Ok (Sent 500 body), cli_proc).
Proof.
  pose proof (chat_needs_a_message silent cli_proc (js "llama3") VUndefined
                eq_refl) as (Hthrow & _ & Hroute & _).
  split; [exact Hthrow | exact Hroute].
Defined.

(** ** Parsing the model table *)

Lemma blank_rev (s : jstring) : blank (rev s) = blank s.
Proof.
  unfold blank. apply eq_true_iff_eq. rewrite !forallb_forall.
  split; intros H x Hx; apply H; [apply in_rev in Hx | apply in_rev]; 
    try rewrite rev_involutive; assumption.
Qed.

Lemma trimStart_blank (s : jstring) : trimStart s = [] <-> blank s = true.
Proof.
  induction s as [|c s IH]; simpl.
  - split; reflexivity.
  - destruct (is_space c); simpl; [exact IH|]. split; discriminate.
Qed.

Lemma trimStart_head (s : jstring) c r :
  trimStart s = c :: r -> is_space c = false.
Proof.
  induction s as [|x s IH]; simpl; [discriminate|].
  destruct (is_space x) eqn:E; [exact IH|]. intro H. injection H as <- _. exact E.
Qed.

Lemma trimStart_split (s : jstring) :
  exists sp, s = sp ++ trimStart s /\ blank sp = true.
Proof.
  induction s as [|c s (sp & E & B)]; simpl.
  - exists []. split; reflexivity.
  - destruct (is_space c) eqn:Hc.
    + exists (c :: sp). simpl. rewrite Hc, B. split; [congruence | reflexivity].
    + exists []. split; reflexivity.
Qed.

Lemma trimEnd_split (t : jstring) :
  exists trailing,
    t = trimEnd t ++ trailing /\ blank trailing = true
    /\ (trimEnd t = [] \/ exists y d, trimEnd t = y ++ [d] /\ is_space d = false).
Proof.
  unfold trimEnd. destruct (trimStart_split (rev t)) as (sp & E & B).
  exists (rev sp). split; [|split].
  - rewrite <- rev_app_distr, <- E. now rewrite rev_involutive.
  - now rewrite blank_rev.
  - destruct (trimStart (rev t)) as [|c r] eqn:T; [left; reflexivity|].
    right. exists (rev r), c. split; [reflexivity|].
    exact (trimStart_head _ _ _ T).
Qed.

Lemma nonblank_blank (l : jstring) : nonblank l = negb (blank l).
Proof.
  unfold nonblank, trim, trimEnd. destruct (blank l) eqn:B; simpl.
  - apply trimStart_blank in B. rewrite B. reflexivity.
  - destruct (trimStart l) as [|c r] eqn:T.
    + apply trimStart_blank in T. congruence.
    + destruct (trimStart (rev (c :: r))) as [|x xs] eqn:T2.
      * apply trimStart_blank in T2. rewrite blank_rev in T2. simpl in T2.
        rewrite (trimStart_head _ _ _ T) in T2. discriminate.
      * simpl. destruct (rev xs); reflexivity.
Qed.

Lemma not_space_not_LF (c : char16) : is_space c = false -> (c =? LF) = false.
Proof.
  intro H. destruct (N.eqb_spec c LF) as [->|]; [discriminate H | reflexivity].
Qed.

Lemma rows_app (a b : list jstring) : rows (a ++ b) = rows a ++ rows b.
Proof. unfold rows. now rewrite filter_app, map_app. Qed.

Lemma rows_blank (ls : list jstring) : forallb blank ls = true -> rows ls = [].
Proof.
  unfold rows. induction ls as [|l ls IH]; simpl; [reflexivity|].
  intro H. apply andb_prop in H as [Hl Hls].
  rewrite nonblank_blank, Hl. simpl. exact (IH Hls).
Qed.

Lemma split_at_blank (f s : jstring) :
  blank f = true -> blank s = true -> forallb blank (split_at LF f s) = true.
Proof.
  revert f. induction s as [|c s IH]; intros f Hf Hs; simpl.
  - now rewrite Hf.
  - simpl in Hs. apply andb_prop in Hs as [Hc Hs].
    destruct (c =? LF).
    + simpl. rewrite Hf. now apply IH.
    + apply IH; [|exact Hs]. unfold blank. rewrite forallb_app. simpl.
      fold (blank f). now rewrite Hf, Hc.
Qed.

(** The lines of a text followed by white space: those of the text, the
    last one longer by some white space, and blank lines after it. *)
Lemma split_at_trailing (f trailing : jstring) :
  blank trailing = true ->
  exists t0 more,
    split_at LF f trailing = (f ++ t0) :: more
    /\ blank t0 = true /\ forallb blank more = true.
Proof.
  revert f. induction trailing as [|c t IH]; intros f H; simpl.
  - exists [], []. rewrite app_nil_r. repeat split.
  - simpl in H. apply andb_prop in H as [Hc Ht].
    destruct (c =? LF).
    + exists [], (split_at LF [] t). rewrite app_nil_r.
      repeat split. now apply split_at_blank.
    + destruct (IH (f ++ [c]) Ht) as (t0 & more & E & B0 & Bm).
      exists (c :: t0), more. rewrite E, <- app_assoc. simpl.
      rewrite Hc, B0. repeat split. exact Bm.
Qed.

Lemma split_at_last (f y : jstring) (d : char16) (trailing : jstring) :
  is_space d = false ->
  exists pre l,
    split_at LF f (y ++ [d]) = pre ++ [l ++ [d]]
    /\ split_at LF f (y ++ d :: trailing)
       = pre ++ split_at LF (l ++ [d]) trailing.
Proof.
  intro Hd. revert f. induction y as [|c y IH]; intro f; simpl.
  - rewrite (not_space_not_LF d Hd). exists [], f. split; reflexivity.
  - destruct (c =? LF).
    + destruct (IH []) as (pre & l & E1 & E2).
      exists (f :: pre), l. rewrite E1, E2. split; reflexivity.
    + destruct (IH (f ++ [c])) as (pre & l & E1 & E2).
      exists pre, l. rewrite E1, E2. split; reflexivity.
Qed.

Lemma split_ws_run (r : jstring) :
  blank r = true -> split_ws_at true [] r = [[]].
Proof.
  induction r as [|c r IH]; simpl; [reflexivity|].
  intro H. apply andb_prop in H as [Hc Hr]. rewrite Hc. exact (IH Hr).
Qed.

Lemma split_ws_trailing (b : bool) (f l : jstring) (d : char16) (t0 : jstring) :
  is_space d = false -> blank t0 = true ->
  split_ws_at b f (l ++ d :: t0)
  = split_ws_at b f (l ++ [d]) ++ tail_piece t0.
Proof.
  intros Hd Ht. revert b f. induction l as [|c l IH]; intros b f; simpl.
  - rewrite Hd. destruct t0 as [|x t0]; simpl; [reflexivity|].
    simpl in Ht. apply andb_prop in Ht as [Hx Ht]. rewrite Hx.
    now rewrite (split_ws_run t0 Ht).
  - destruct (is_space c); [destruct b|]; simpl; now rewrite IH.
Qed.

Lemma split_ws_at_cons (b : bool) (f s : jstring) :
  exists x xs, split_ws_at b f s = x :: xs.
Proof.
  revert b f. induction s as [|c s IH]; intros b f; simpl.
  - now exists f, [].
  - destruct (is_space c); [destruct b|]; eauto.
Qed.

Lemma part_or_empty_tail (parts : list jstring) (t0 : jstring) (i : nat) :
  part_or_empty (parts ++ tail_piece t0) i = part_or_empty parts i.
Proof.
  unfold part_or_empty. destruct t0 as [|x t0]; simpl.
  - now rewrite app_nil_r.
  - destruct (Nat.lt_ge_cases i (List.length parts)) as [H|H].
    + now rewrite nth_error_app1.
    + rewrite nth_error_app2 by exact H.
      rewrite (proj2 (nth_error_None parts i) H).
      destruct (i - List.length parts)%nat as [|[|k]]; reflexivity.
Qed.

Lemma model_of_line_trailing (l : jstring) (d : char16) (t0 : jstring) :
  is_space d = false -> blank t0 = true ->
  model_of_line ((l ++ [d]) ++ t0) = model_of_line (l ++ [d]).
Proof.
  intros Hd Ht. unfold model_of_line, split_ws.
  rewrite <- app_assoc. simpl.
  rewrite (split_ws_trailing false [] l d t0 Hd Ht).
  destruct (split_ws_at_cons false [] (l ++ [d])) as (x & xs & ->).
  rewrite !part_or_empty_tail. reflexivity.
Qed.

Lemma nonblank_with (l : jstring) (d : char16) (t0 : jstring) :
  is_space d = false -> nonblank ((l ++ [d]) ++ t0) = true.
Proof.
  intro Hd. rewrite nonblank_blank. unfold blank.
  rewrite !forallb_app. simpl. rewrite Hd.
  now rewrite andb_false_r.
Qed.

(** Trailing white space of the output makes no difference to the rows. *)
Lemma rows_trimEnd (t : jstring) :
  rows (tl (split_char LF (trimEnd t))) = rows (tl (split_char LF t)).
Proof.
  destruct (trimEnd_split t) as (trailing & E & Bt & [Z | (y & d & Ey & Hd)]).
  - rewrite Z in *. simpl in E. subst t. simpl. symmetry. apply rows_blank.
    pose proof (split_at_blank [] trailing eq_refl Bt) as H.
    unfold split_char. destruct (split_at LF [] trailing); [reflexivity|].
    simpl in H. now apply andb_prop in H as [_ H].
  - rewrite E at 2. rewrite Ey. rewrite <- app_assoc. simpl.
    unfold split_char.
    destruct (split_at_last [] y d trailing Hd) as (pre & l & E1 & E2).
    rewrite E1, E2.
    destruct (split_at_trailing (l ++ [d]) trailing Bt)
      as (t0 & more & E3 & B0 & Bm).
    rewrite E3. destruct pre as [|a pre]; simpl.
    + symmetry. now apply rows_blank.
    + rewrite !rows_app. f_equal. unfold rows at 1 2. simpl.
      rewrite (nonblank_with l d t0 Hd).
      pose proof (nonblank_with l d [] Hd) as N0. rewrite app_nil_r in N0.
      rewrite N0. simpl. rewrite (model_of_line_trailing l d t0 Hd B0).
      f_equal. symmetry. apply (rows_blank more Bm).
Qed.

Lemma split_at_line (f header rest : jstring) :
  forallb (fun x => negb (x =? LF)) header = true ->
  split_at LF f (header ++ LF :: rest) = (f ++ header) :: split_at LF [] rest.
Proof.
  revert f. induction header as [|c h IH]; intros f H; simpl.
  - now rewrite app_nil_r.
  - simpl in H. apply andb_prop in H as [Hc Hh].
    destruct (c =? LF); [discriminate|].
    rewrite (IH (f ++ [c]) Hh), <- app_assoc. reflexivity.
Qed.

Lemma parse_model_list_trimStart (stdout : jstring) :
  parse_model_list stdout = parse_model_list_spec (trimStart stdout).
Proof.
  unfold parse_model_list, parse_model_list_spec, trim.
  apply (rows_trimEnd (trimStart stdout)).
Qed.

(** C5 (as amended).  Parsing first strips the white space the output
    begins with (blank lines included); of what is left it discards the
    first line whatever it holds, drops blank lines, and splits each other
    line at its runs of white space into name, modified_at, size and
    digest by position, a field that is not there being the empty string.
    So an output that begins with its header line loses exactly that line;
    and the table of the example gives the one descriptor
    llama3 / abc123 / 4.1GB / 2. *)
Theorem model_table_parsing (stdout : jstring) :
  parse_model_list stdout = parse_model_list_spec (trimStart stdout)
  /\ (forall c header rest,
        is_space c = false ->
        forallb (fun x => negb (x =? LF)) header = true ->
        parse_model_list (c :: header ++ LF :: rest)
        = map model_of_line (filter nonblank (split_char LF rest)))
  /\ model_of_line (js "llama3")
     = {| name := js "llama3"; modified_at := []; size := []; digest := [] |}
  /\ parse_model_list table
     = [ {| name := js "llama3"; modified_at := js "abc123";
            size := js "4.1GB"; digest := js "2" |} ].
Proof.
  split; [apply parse_model_list_trimStart|]. split; [|split].
  - intros c header rest Hc Hh. rewrite parse_model_list_trimStart.
    simpl. rewrite Hc. unfold parse_model_list_spec, split_char. simpl.
    rewrite (not_space_not_LF c Hc), (split_at_line [c] header rest Hh).
    reflexivity.
  - vm_compute. reflexivity.
  - vm_compute. reflexivity.
Qed.

(** C5 as stated fails when the output begins with a blank line: the
    blank line is stripped first, and the line after it is then taken for
    the header and lost. *)
Lemma leading_blank_line_costs_a_row :
  parse_model_list ([LF] ++ js "A" ++ [LF] ++ js "B")
  = [ {| name := js "B"; modified_at := []; size := []; digest := [] |} ]
  /\ parse_model_list_spec ([LF] ++ js "A" ++ [LF] ++ js "B")
     = [ {| name := js "A"; modified_at := []; size := []; digest := [] |};
         {| name := js "B"; modified_at := []; size := []; digest := [] |} ]
  /\ parse_model_list ([LF] ++ js "A" ++ [LF] ++ js "B")
     <> parse_model_list_spec ([LF] ++ js "A" ++ [LF] ++ js "B").
Proof.
  split; [vm_compute; reflexivity|]. split; [vm_compute; reflexivity|].
  vm_compute. discriminate.
Qed.

Lemma model_table_parsing_witness :
  parse_model_list (js "NAME ID" ++ [LF] ++ js "llama3 abc")
  = map model_of_line (filter nonblank (split_char LF (js "llama3 abc"))).
Proof.
  exact (proj1 (proj2 (model_table_parsing []))
           78 (js "AME ID") (js "llama3 abc") eq_refl eq_refl).
Defined.

(* ===================================================================== *)
(** * Further properties *)
(* ===================================================================== *)

(** ** The LAN address *)

Lemma eqb_str_eq (a b : jstring) : eqb_str a b = true -> a = b.
Proof.
  revert b. induction a as [|x a IH]; intros [|y b]; simpl;
    try discriminate; [reflexivity|].
  intro H. apply andb_prop in H as [H1 H2].
  apply N.eqb_eq in H1. subst. f_equal. now apply IH.
Qed.

Lemma find_app_or {A : Type} (f : A -> bool) (a b : list A) :
  find f (a ++ b) = match find f a with Some x => Some x | None => find f b end.
Proof.
  induction a as [|x a IH]; simpl; [reflexivity|].
  destruct (f x); [reflexivity | exact IH].
Qed.

Lemma first_address_find (l : list Iface) :
  first_address l = option_map address (find is_external_v4 l).
Proof.
  induction l as [|i l IH]; simpl; [reflexivity|].
  destruct (is_external_v4 i); [reflexivity | exact IH].
Qed.

Lemma scan_interfaces_find (l : list (string * list Iface)) :
  scan_interfaces l = option_map address (find is_external_v4 (flat_map snd l)).
Proof.
  induction l as [|[nm ifaces] l IH]; simpl; [reflexivity|].
  rewrite find_app_or, first_address_find.
  destruct (find is_external_v4 ifaces); simpl; [reflexivity | exact IH].
Qed.

Lemma getLocalIPAddress_find (w : World) :
  getLocalIPAddress w
  = match find is_external_v4 (all_interfaces w) with
    | Some i => address i
    | None => js "0.0.0.0"
    end.
Proof.
  unfold getLocalIPAddress, all_interfaces. rewrite scan_interfaces_find.
  destruct (find is_external_v4 (flat_map snd (networkInterfaces w)));
    reflexivity.
Qed.

Lemma getLocalIPAddress_none (w : World) :
  (forall i, In i (all_interfaces w) -> is_external_v4 i = false) ->
  getLocalIPAddress w = js "0.0.0.0".
Proof.
  intro H. rewrite getLocalIPAddress_find.
  destruct (find is_external_v4 (all_interfaces w)) as [i|] eqn:F;
    [|reflexivity].
  apply find_some in F as [Hin Hx]. rewrite (H i Hin) in Hx. discriminate.
Qed.

(** X1.  [getLocalIPAddress] returns the address of the first entry, over
    all interfaces in order, that is IPv4 and not internal; it returns
    0.0.0.0 exactly when it finds no such entry, and any other result is
    the address of an external IPv4 entry. *)
Theorem local_address_first_external (w : World) :
  getLocalIPAddress w
  = match find is_external_v4 (all_interfaces w) with
    | Some i => address i
    | None => js "0.0.0.0"
    end
  /\ ((forall i, In i (all_interfaces w) -> is_external_v4 i = false) ->
      getLocalIPAddress w = js "0.0.0.0")
  /\ (getLocalIPAddress w <> js "0.0.0.0" ->
      exists i, In i (all_interfaces w) /\ family i = js "IPv4"
                /\ internal i = false /\ address i = getLocalIPAddress w).
Proof.
  pose proof (getLocalIPAddress_find w) as E.
  split; [exact E|]. split.
  - apply getLocalIPAddress_none.
  - intro H. rewrite E in *.
    destruct (find is_external_v4 (all_interfaces w)) as [i|] eqn:F;
      [|now elim H].
    apply find_some in F as [Hin Hx]. exists i.
    unfold is_external_v4 in Hx. apply andb_prop in Hx as [Hf Hi].
    split; [exact Hin|]. split; [|split; [|reflexivity]].
    + now apply eqb_str_eq.
    + now destruct (internal i).
Qed.

Lemma local_address_first_external_witness :
  getLocalIPAddress silent = js "192.168.0.7"
  /\ exists i, In i (all_interfaces silent) /\ family i = js "IPv4"
               /\ internal i = false /\ address i = getLocalIPAddress silent.
Proof.
  split; [vm_compute; reflexivity|].
  apply (proj2 (proj2 (local_address_first_external silent))).
  vm_compute. discriminate.
Defined.

(** ** One liveness check *)

(** X2.  A liveness check never throws: it sends the one version request
    and resolves to true or false; to true exactly when the request is
    answered with an ok status and a body that parses as JSON and is not
    null.  A rejected request (refused, timed out), a non-ok status, an
    unparseable body and the body [null] all give false. *)
Theorem liveness_check_outcome (w : World) (h : jstring) (p : Proc) :
  snd (testOllamaConnection h w p) = log_event (version_request h) p
  /\ (fst (testOllamaConnection h w p) = Ok true
      \/ fst (testOllamaConnection h w p) = Ok false)
  /\ (fst (testOllamaConnection h w p) = Ok true
      <-> exists st txt v,
            fetch_reply w (trace p) (h ++ js "/api/version")
            = FetchResponse true st txt (Some v) /\ v <> VNull).
Proof.
  unfold testOllamaConnection, try_catch, bind, fetch, request, ret, throw,
    version_request.
  cbn [fst snd].
  destruct (fetch_reply w (trace p) (h ++ js "/api/version"))
    as [msg | [|] st txt [[| | | | | |]|]]; cbn [fst snd];
    (split; [reflexivity|]); (split; [auto|]); split;
    try discriminate;
    try (intros (st' & txt' & v & E & N); try discriminate;
         injection E as _ _ <-; now elim N);
    intros _; do 3 eexists; (split; [reflexivity | discriminate]).
Qed.

(** ** What the prober's answer means *)

(** X3.  The prober never throws.  When it returns a URL, that URL is a
    candidate, its own check succeeded, the check of every candidate
    before it failed, and the checks made are those up to it; when it
    returns null, the check of every candidate failed. *)
Theorem probe_answer_sound (w : World) (hosts : list jstring) (p : Proc) :
  (exists r, fst (probe hosts w p) = Ok r)
  /\ (forall url,
        fst (probe hosts w p) = Ok (Some url) ->
        exists k,
          nth_error hosts k = Some url
          /\ alive w (checked (firstn k hosts) p) url = true
          /\ (forall i h, (i < k)%nat -> nth_error hosts i = Some h ->
                          alive w (checked (firstn i hosts) p) h = false)
          /\ snd (probe hosts w p) = checked (firstn (S k) hosts) p)
  /\ (fst (probe hosts w p) = Ok None ->
      forall i h, nth_error hosts i = Some h ->
                  alive w (checked (firstn i hosts) p) h = false).
Proof.
  revert p. induction hosts as [|h rest IH]; intro p.
  - split; [now exists None|]. split.
    + discriminate.
    + intros _ [|i] h'; discriminate.
  - rewrite probe_step. destruct (alive w p h) eqn:A.
    + split; [now exists (Some h)|]. split.
      * intros url E. injection E as <-. exists 0%nat.
        split; [reflexivity|]. split; [exact A|]. split; [|reflexivity].
        intros i h' Hi. lia.
      * discriminate.
    + destruct (IH (checked [h] p)) as (T & S1 & N1).
      split; [exact T|]. split.
      * intros url E. destruct (S1 url E) as (k & Hk & Hl & Hd & Hs).
        exists (S k). split; [exact Hk|]. split; [exact Hl|]. split.
        -- intros [|i] h' Hi Hn.
           ++ injection Hn as <-. exact A.
           ++ apply (Hd i h'); [lia | exact Hn].
        -- exact Hs.
      * intros E [|i] h' Hn.
        -- injection Hn as <-. exact A.
        -- apply (N1 E i h' Hn).
Qed.

Lemma probe_answer_sound_witness :
  exists k,
    nth_error [js "http://a"; js "http://b"] k = Some (js "http://b")
    /\ alive (with_server (js "http://b"))
         (checked (firstn k [js "http://a"; js "http://b"]) boot)
         (js "http://b") = true
    /\ (forall i h, (i < k)%nat ->
          nth_error [js "http://a"; js "http://b"] i = Some h ->
          alive (with_server (js "http://b"))
            (checked (firstn i [js "http://a"; js "http://b"]) boot) h = false)
    /\ snd (probe [js "http://a"; js "http://b"]
              (with_server (js "http://b")) boot)
       = checked (firstn (S k) [js "http://a"; js "http://b"]) boot.
Proof.
  apply (proj1 (proj2 (probe_answer_sound (with_server (js "http://b"))
                         [js "http://a"; js "http://b"] boot))).
  vm_compute. reflexivity.
Defined.

(** ** The port search *)

Lemma port_tested_step (n : N) (k : nat) (p : Proc) :
  port_tested n (S k) p = port_tested (n + 1) k (log_event (Listen n) p).
Proof. reflexivity. Qed.


Lemma find_port_step (fuel : nat) (n : N) (w : World) (p : Proc) :
  find_port (S fuel) n w p
  = if port_free w (trace p) n then (Ok n, log_event (Listen n) p)
    else find_port fuel (n + 1) w (log_event (Listen n) p).
Proof.
  simpl. unfold bind, testPort, request.
  destruct (port_free w (trace p) n); reflexivity.
Qed.


(** ** Running init step by step *)

Lemma probe_run (w : World) (hosts : list jstring) (p : Proc) :
  exists found n,
    probe hosts w p = (Ok found, checked (firstn n hosts) p)
    /\ (forall h, found = Some h -> In h hosts)
    /\ (found = None -> firstn n hosts = hosts).
Proof.
  revert p. induction hosts as [|h rest IH]; intro p.
  - exists None, 0%nat. split; [reflexivity|]. split; [discriminate|reflexivity].
  - rewrite probe_step. destruct (alive w p h).
    + exists (Some h), 1%nat. split; [reflexivity|]. split.
      * intros h' E. injection E as <-. now left.
      * discriminate.
    + destruct (IH (checked [h] p)) as (found & n & E & Hin & Hall).
      exists found, (S n). split; [exact E|]. split.
      * intros h' F. right. now apply Hin.
      * intro F. simpl. now rewrite (Hall F).
Qed.

Lemma findWorkingOllamaHost_run (w : World) (p : Proc) :
  exists found n,
    findWorkingOllamaHost w p
    = (Ok found, checked (firstn n (possibleHosts w)) p)
    /\ (forall h, found = Some h -> In h (possibleHosts w))
    /\ (found = None -> firstn n (possibleHosts w) = possibleHosts w).
Proof. apply (probe_run w (possibleHosts w) p). Qed.

Lemma sdk_list_run (w : World) (h : jstring) (p : Proc) :
  sdk_list h w p
  = (match sdk_models w (trace p) h with
     | Resolved models => Ok models
     | Rejected msg => Throw {| cause := SdkErr; message := msg |}
     end, log_event (Sdk h SdkList) p).
Proof.
  unfold sdk_list, of_answer, bind, request, ret, throw.
  destruct (sdk_models w (trace p) h); reflexivity.
Qed.

Lemma getModelsViaCLI_run (w : World) (p : Proc) :
  getModelsViaCLI w p
  = (match exec_reply w (trace p) (js "ollama list") list_options with
     | ExecDone out _ => Ok (parse_model_list out)
     | ExecFailed why msg =>
         Throw {| cause := ExecErr why;
                  message := js "CLI List Error: " ++ msg |}
     end, log_event list_probe p).
Proof.
  unfold getModelsViaCLI, execAsync, try_catch, bind, request, ret, throw,
    rethrow, list_probe.
  fold list_options.
  destruct (exec_reply w (trace p) (js "ollama list") list_options);
    reflexivity.
Qed.

Lemma find_port_run (w : World) (fuel : nat) (n : N) (p : Proc) :
  (exists k,
      (k < fuel)%nat
      /\ find_port fuel n w p = (Ok (n + N.of_nat k), port_tested n (S k) p)
      /\ port_free w (trace (port_tested n k p)) (n + N.of_nat k) = true
      /\ forall i, (i < k)%nat ->
           port_free w (trace (port_tested n i p)) (n + N.of_nat i) = false)
  \/ (find_port fuel n w p = (Running, port_tested n fuel p)
      /\ forall i, (i < fuel)%nat ->
           port_free w (trace (port_tested n i p)) (n + N.of_nat i) = false).
Proof.
  revert n p. induction fuel as [|fuel IH]; intros n p.
  - right. split; [reflexivity|]. intros i Hi. lia.
  - rewrite find_port_step. destruct (port_free w (trace p) n) eqn:F.
    + left. exists 0%nat. rewrite N.add_0_r.
      split; [lia|]. split; [reflexivity|]. split; [exact F|].
      intros i Hi. lia.
    + assert (Shift : forall i,
                port_free w (trace (port_tested (n + 1) i
                                      (log_event (Listen n) p)))
                  (n + 1 + N.of_nat i)
                = port_free w (trace (port_tested n (S i) p))
                    (n + N.of_nat (S i))).
      { intro i. rewrite port_tested_step. f_equal. lia. }
      destruct (IH (n + 1) (log_event (Listen n) p))
        as [(k & Hk & E & Hfree & Hbusy) | (E & Hbusy)].
      * left. exists (S k). split; [lia|]. split.
        -- rewrite E, port_tested_step. do 2 f_equal. lia.
        -- split.
           ++ rewrite <- Shift. exact Hfree.
           ++ intros [|i] Hi.
              ** change (port_free w (trace p) (n + 0) = false).
                 now rewrite N.add_0_r.
              ** rewrite <- Shift. apply Hbusy. lia.
      * right. split; [exact E|]. intros [|i] Hi.
        -- change (port_free w (trace p) (n + 0) = false).
           now rewrite N.add_0_r.
        -- rewrite <- Shift. apply Hbusy. lia.
Qed.

(** The block of [init] that tries the SDK on the host the prober found. *)
Lemma init_sdk_block (w : World) (wh : jstring) (p : Proc) :
  try_catch
    (write (set_ollama (Some wh)) ;;;
     _ <- sdk_list wh ;;
     write (set_activeOllamaHost wh))
    (fun _ => write (set_ollama None)) w p
  = (Ok tt,
     match sdk_models w (trace p) wh with
     | Resolved _ =>
         set_activeOllamaHost wh
           (log_event (Sdk wh SdkList) (set_ollama (Some wh) p))
     | Rejected _ =>
         set_ollama None (log_event (Sdk wh SdkList) (set_ollama (Some wh) p))
     end).
Proof.
  unfold try_catch, bind at 1, write at 1. unfold bind.
  rewrite sdk_list_run. cbn [trace set_ollama].
  destruct (sdk_models w (trace p) wh); reflexivity.
Qed.

(** The block of [init] that falls back to the CLI. *)
Lemma init_cli_block (w : World) (p : Proc) :
  (cliWorks <- testOllamaCLI ;;
   if cliWorks then
     try_catch
       (_ <- getModelsViaCLI ;;
        write (set_useCLI true))
       (fun _ => ret tt)
   else ret tt) w p
  = (Ok tt,
     match exec_reply w (trace p) (js "ollama --version") version_options with
     | ExecFailed _ _ => log_event version_probe p
     | ExecDone _ _ =>
         match exec_reply w (trace p ++ [version_probe]) (js "ollama list")
                 list_options with
         | ExecDone _ _ =>
             set_useCLI true (log_event list_probe (log_event version_probe p))
         | ExecFailed _ _ => log_event list_probe (log_event version_probe p)
         end
     end).
Proof.
  unfold bind at 1. rewrite testOllamaCLI_run.
  fold version_probe.
  destruct (exec_reply w (trace p) (js "ollama --version") version_options);
    cbn [exits_zero]; [|reflexivity].
  unfold try_catch, bind. rewrite getModelsViaCLI_run. cbn [trace log_event].
  destruct (exec_reply w (trace p ++ [version_probe]) (js "ollama list")
              list_options); reflexivity.
Qed.

Lemma init_run (w : World) (fuel : nat) (config : Config) (p : Proc) :
  initiated p = false ->
  exists found n,
    (forall h, found = Some h -> In h (possibleHosts w))
    /\ (found = None -> firstn n (possibleHosts w) = possibleHosts w)
    /\ init fuel config w p
       = match
           find_port fuel (start_port w config) w
             (after_cli w
                (after_sdk w found
                   (set_activeOllamaHost
                      (or_else found (configured_ollamaHost w config))
                      (set_useCLI false
                         (set_ollama None
                            (checked (firstn n (possibleHosts w))
                               (set_port (start_port w config)
                                  (set_host (relay_host w config)
                                     (set_initiated true p)))))))))
         with
         | (Ok c, q) => (Ok AppDb, set_port c (set_listening (Some c) q))
         | (Throw e, q) => (Throw e, q)
         | (Running, q) => (Running, q)
         end.
Proof.
  intro Hi.
  destruct (findWorkingOllamaHost_run w
              (set_port (start_port w config)
                 (set_host (relay_host w config) (set_initiated true p))))
    as (found & n & E & Hin & Hall).
  exists found, n. split; [exact Hin|]. split; [exact Hall|].
  unfold init. unfold bind at 1, read at 1. rewrite Hi.
  unfold bind at 1, write at 1.
  do 3 (unfold bind at 1; rewrite default_to_ask).
  fold (relay_host w config) (start_port w config)
    (configured_ollamaHost w config).
  do 2 (unfold bind at 1, write at 1).
  unfold bind at 1. rewrite E.
  do 3 (unfold bind at 1, write at 1).
  unfold bind at 1.
  assert (S1 : forall P,
             match found with
             | Some wh =>
                 try_catch
                   (write (set_ollama (Some wh)) ;;;
                    _ <- sdk_list wh ;;
                    write (set_activeOllamaHost wh))
                   (fun _ => write (set_ollama None))
             | None => ret tt
             end w P = (Ok tt, after_sdk w found P)).
  { intro P. destruct found as [wh|]; [|reflexivity].
    rewrite init_sdk_block. unfold after_sdk.
    destruct (sdk_models w (trace P) wh); reflexivity. }
  rewrite S1.
  unfold bind at 1, read at 1. unfold bind at 1.
  match goal with
  | |- context [after_sdk w found ?P] => set (P3 := after_sdk w found P)
  end.
  assert (S2 : (if is_null (ollama P3)
                then cliWorks <- testOllamaCLI ;;
                     if cliWorks then
                       try_catch
                         (_ <- getModelsViaCLI ;; write (set_useCLI true))
                         (fun _ => ret tt)
                     else ret tt
                else ret tt) w P3 = (Ok tt, after_cli w P3)).
  { unfold after_cli. destruct (is_null (ollama P3)); [|reflexivity].
    rewrite init_cli_block.
    destruct (exec_reply w (trace P3) (js "ollama --version") version_options);
      [|reflexivity].
    destruct (exec_reply w (trace P3 ++ [version_probe]) (js "ollama list")
                list_options); reflexivity. }
  rewrite S2. unfold bind at 1.
  destruct (find_port fuel (start_port w config) w (after_cli w P3))
    as [[c|e|] q]; reflexivity.
Qed.

Lemma log_events_vars (evs : list Event) (p : Proc) :
  same_vars p (log_events evs p).
Proof.
  revert p. induction evs as [|e evs IH]; intro p.
  - apply same_vars_refl.
  - eapply same_vars_trans; [apply (same_vars_log e p) | apply IH].
Qed.

Lemma initiated_log_events evs p : initiated (log_events evs p) = initiated p.
Proof. apply (log_events_vars evs p). Qed.
Lemma ollama_log_events evs p : ollama (log_events evs p) = ollama p.
Proof. apply (log_events_vars evs p). Qed.
Lemma useCLI_log_events evs p : useCLI (log_events evs p) = useCLI p.
Proof. apply (log_events_vars evs p). Qed.
Lemma activeOllamaHost_log_events evs p :
  activeOllamaHost (log_events evs p) = activeOllamaHost p.
Proof. apply (log_events_vars evs p). Qed.
Lemma host_log_events evs p : host (log_events evs p) = host p.
Proof. apply (log_events_vars evs p). Qed.
Lemma port_log_events evs p : port (log_events evs p) = port p.
Proof. apply (log_events_vars evs p). Qed.
Lemma listening_log_events evs p : listening (log_events evs p) = listening p.
Proof. apply (log_events_vars evs p). Qed.

(** Reads a field off a state built from assignments and logged events. *)
Ltac fields :=
  repeat first
    [ progress cbn [initiated ollama useCLI activeOllamaHost host port
                    listening trace set_initiated set_ollama set_useCLI
                    set_activeOllamaHost set_host set_port set_listening
                    log_event is_null]
    | rewrite initiated_log_events | rewrite ollama_log_events
    | rewrite useCLI_log_events | rewrite activeOllamaHost_log_events
    | rewrite host_log_events | rewrite port_log_events
    | rewrite listening_log_events | rewrite trace_log_events ].

Lemma init_cases (w : World) (fuel : nat) (config : Config) (p q : Proc) :
  init fuel config w p = (Ok AppDb, q) ->
  exists found n k,
    (forall h, found = Some h -> In h (possibleHosts w))
    /\ (found = None -> firstn n (possibleHosts w) = possibleHosts w)
    /\ (k < fuel)%nat
    /\ port q = start_port w config + N.of_nat k
    /\ listening q = Some (start_port w config + N.of_nat k)
    /\ host q = relay_host w config
    /\ initiated q = true
    /\ ((exists h models,
           found = Some h
           /\ sdk_models w
                (trace p ++ map version_request (firstn n (possibleHosts w))) h
              = Resolved models
           /\ ollama q = Some h /\ useCLI q = false /\ activeOllamaHost q = h
           /\ trace q
              = trace p ++ map version_request (firstn n (possibleHosts w))
                ++ [Sdk h SdkList]
                ++ map Listen (ports (start_port w config) (S k)))
        \/ (exists sdkpart,
              ((found = None /\ sdkpart = [])
               \/ (exists h msg,
                     found = Some h
                     /\ sdk_models w
                          (trace p
                           ++ map version_request (firstn n (possibleHosts w)))
                          h
                        = Rejected msg
                     /\ sdkpart = [Sdk h SdkList]))
              /\ ollama q = None
              /\ activeOllamaHost q
                 = or_else found (configured_ollamaHost w config)
              /\ ((exists why msg,
                     exec_reply w
                       (trace p
                        ++ map version_request (firstn n (possibleHosts w))
                        ++ sdkpart)
                       (js "ollama --version") version_options
                     = ExecFailed why msg
                     /\ useCLI q = false
                     /\ trace q
                        = trace p
                          ++ map version_request (firstn n (possibleHosts w))
                          ++ sdkpart ++ [version_probe]
                          ++ map Listen (ports (start_port w config) (S k)))
                  \/ (exists out err,
                        exec_reply w
                          (trace p
                           ++ map version_request (firstn n (possibleHosts w))
                           ++ sdkpart)
                          (js "ollama --version") version_options
                        = ExecDone out err
                        /\ trace q
                           = trace p
                             ++ map version_request
                                  (firstn n (possibleHosts w))
                             ++ sdkpart ++ [version_probe; list_probe]
                             ++ map Listen (ports (start_port w config) (S k))
                        /\ ((exists o e,
                               exec_reply w
                                 (trace p
                                  ++ map version_request
                                       (firstn n (possibleHosts w))
                                  ++ sdkpart ++ [version_probe])
                                 (js "ollama list") list_options
                               = ExecDone o e
                               /\ useCLI q = true)
                            \/ (exists why msg,
                                  exec_reply w
                                    (trace p
                                     ++ map version_request
                                          (firstn n (possibleHosts w))
                                     ++ sdkpart ++ [version_probe])
                                    (js "ollama list") list_options
                                  = ExecFailed why msg
                                  /\ useCLI q = false)))))).
Proof.
  intro H. pose proof (init_AppDb_fresh _ _ _ _ _ H) as Hi.
  destruct (init_run w fuel config p Hi) as (found & n & Hin & Hall & E).
  rewrite E in H. clear E.
  match type of H with
  | context [find_port fuel ?s w ?P] =>
      destruct (find_port_run w fuel s P)
        as [(k & Hk & F & _ & _) | (F & _)]; rewrite F in H; clear F
  end; [|discriminate].
  injection H as <-.
  exists found, n, k.
  split; [exact Hin|]. split; [exact Hall|]. split; [exact Hk|].
  unfold port_tested, checked, after_cli, after_sdk.
  destruct found as [h|].
  - fields.
    destruct (sdk_models w
                (trace p ++ map version_request (firstn n (possibleHosts w))) h)
      as [models|msg] eqn:S1; fields.
    + repeat (split; [reflexivity|]).
      left. exists h, models. rewrite <- !app_assoc.
      repeat split; assumption.
    + destruct (exec_reply w
                  ((trace p ++ map version_request (firstn n (possibleHosts w)))
                   ++ [Sdk h SdkList]) (js "ollama --version") version_options)
        as [out err|why msg'] eqn:V; fields.
      * destruct (exec_reply w
                    (((trace p
                       ++ map version_request (firstn n (possibleHosts w)))
                      ++ [Sdk h SdkList]) ++ [version_probe])
                    (js "ollama list") list_options)
          as [o e|why msg'] eqn:L; fields;
          repeat (split; [reflexivity|]);
          right; exists [Sdk h SdkList];
          (split; [right; exists h, msg; repeat split; assumption|]);
          repeat (split; [reflexivity|]);
          right; exists out, err; rewrite <- !app_assoc in *;
          (split; [exact V|]); (split; [reflexivity|]);
          [left; exists o, e | right; exists why, msg'];
          (split; [exact L | reflexivity]).
      * repeat (split; [reflexivity|]).
        right. exists [Sdk h SdkList].
        split; [right; exists h, msg; repeat split; assumption|].
        repeat (split; [reflexivity|]).
        left. exists why, msg'. rewrite <- !app_assoc in *.
        split; [exact V|]. split; reflexivity.
  - fields.
    destruct (exec_reply w
                (trace p ++ map version_request (firstn n (possibleHosts w)))
                (js "ollama --version") version_options)
      as [out err|why msg'] eqn:V; fields.
    + destruct (exec_reply w
                  ((trace p ++ map version_request (firstn n (possibleHosts w)))
                   ++ [version_probe])
                  (js "ollama list") list_options)
        as [o e|why msg'] eqn:L; fields;
        repeat (split; [reflexivity|]);
        right; exists [];
        (split; [left; split; reflexivity|]);
        repeat (split; [reflexivity|]);
        right; exists out, err; rewrite <- ?app_assoc in *;
        cbn [app] in *; rewrite ?app_nil_r;
        (split; [exact V|]); (split; [reflexivity|]);
        [left; exists o, e | right; exists why, msg'];
        (split; [exact L | reflexivity]).
    + repeat (split; [reflexivity|]).
      right. exists [].
      split; [left; split; reflexivity|].
      repeat (split; [reflexivity|]).
      left. exists why, msg'. rewrite <- ?app_assoc in *. cbn [app] in *.
      rewrite ?app_nil_r.
      split; [exact V|]. split; reflexivity.
Qed.

Lemma no_exec_app (a b : list Event) :
  forallb (fun e => negb (is_exec e)) (a ++ b)
  = forallb (fun e => negb (is_exec e)) a
    && forallb (fun e => negb (is_exec e)) b.
Proof. apply forallb_app. Qed.

Lemma no_exec_fetches (hosts : list jstring) :
  forallb (fun e => negb (is_exec e)) (map version_request hosts) = true.
Proof. induction hosts as [|h t IH]; [reflexivity | exact IH]. Qed.

Lemma no_exec_listens (l : list N) :
  forallb (fun e => negb (is_exec e)) (map Listen l) = true.
Proof. induction l as [|h t IH]; [reflexivity | exact IH]. Qed.

Lemma no_sdk_fetches (hosts : list jstring) :
  forallb (fun e => negb (is_sdk e)) (map version_request hosts) = true.
Proof. induction hosts as [|h t IH]; [reflexivity | exact IH]. Qed.

Lemma mode_http (p : Proc) :
  mode p = NetworkAPI -> exists h, ollama p = Some h.
Proof.
  unfold mode. destruct (ollama p) as [h|]; [now exists h|].
  destruct (useCLI p); discriminate.
Qed.

(** ** How init resolves the backend *)

(** X5.  When [init] ends with the HTTP backend, the SDK client is bound to
    one of the candidate URLs, the host the status route shows is that
    URL, the client's [list()] was called on it, and [init] started no
    command at all: the CLI is not touched when HTTP works. *)
Theorem init_http_runs_no_command (w : World) (fuel : nat) (config : Config)
    (p q : Proc) :
  init fuel config w p = (Ok AppDb, q) ->
  mode q = NetworkAPI ->
  exists h evs,
    ollama q = Some h /\ In h (possibleHosts w) /\ activeOllamaHost q = h
    /\ trace q = trace p ++ evs
    /\ In (Sdk h SdkList) evs
    /\ forallb (fun e => negb (is_exec e)) evs = true.
Proof.
  intros H M.
  destruct (init_cases w fuel config p q H)
    as (found & n & k & Hin & _ & _ & _ & _ & _ & _ & Cases).
  destruct Cases as [(h & models & F & _ & Ho & _ & Ha & T)
                    | (sdkpart & _ & Ho & _)].
  - exists h, (map version_request (firstn n (possibleHosts w))
               ++ [Sdk h SdkList]
               ++ map Listen (ports (start_port w config) (S k))).
    split; [exact Ho|]. split; [exact (Hin h F)|]. split; [exact Ha|].
    split; [exact T|]. split.
    + apply in_or_app. right. now left.
    + rewrite !no_exec_app, no_exec_fetches, no_exec_listens. reflexivity.
  - unfold mode in M. rewrite Ho in M. destruct (useCLI q); discriminate.
Qed.

Lemma init_http_runs_no_command_witness :
  exists h evs,
    ollama (started (with_server (js "http://127.0.0.1:11434"))) = Some h
    /\ In h (possibleHosts (with_server (js "http://127.0.0.1:11434")))
    /\ activeOllamaHost (started (with_server (js "http://127.0.0.1:11434")))
       = h
    /\ trace (started (with_server (js "http://127.0.0.1:11434")))
       = trace boot ++ evs
    /\ In (Sdk h SdkList) evs
    /\ forallb (fun e => negb (is_exec e)) evs = true.
Proof.
  apply (init_http_runs_no_command (with_server (js "http://127.0.0.1:11434"))
           1%nat no_config boot).
  - vm_compute. reflexivity.
  - vm_compute. reflexivity.
Defined.

(** X6.  When [init] ends without the HTTP backend, it has run the version
    command of the CLI, and nothing was run before it; and when no SDK
    call came before it (the prober found no host), the requests before it
    are the liveness checks of all candidates, each once, in list order. *)
Theorem init_without_http_asks_cli (w : World) (fuel : nat) (config : Config)
    (p q : Proc) :
  init fuel config w p = (Ok AppDb, q) ->
  mode q <> NetworkAPI ->
  exists before after,
    trace q = trace p ++ before ++ version_probe :: after
    /\ forallb (fun e => negb (is_exec e)) before = true
    /\ (forallb (fun e => negb (is_sdk e)) before = true ->
        before = map version_request (possibleHosts w)).
Proof.
  intros H M.
  destruct (init_cases w fuel config p q H)
    as (found & n & k & _ & Hall & _ & _ & _ & _ & _ & Cases).
  destruct Cases as [(h & models & _ & _ & Ho & _)
                    | (sdkpart & Hsdk & _ & _ & Hcli)].
  - elim M. unfold mode. now rewrite Ho.
  - assert (Hbefore :
              forallb (fun e => negb (is_exec e))
                (map version_request (firstn n (possibleHosts w)) ++ sdkpart)
              = true
              /\ (forallb (fun e => negb (is_sdk e))
                    (map version_request (firstn n (possibleHosts w))
                     ++ sdkpart) = true ->
                  map version_request (firstn n (possibleHosts w)) ++ sdkpart
                  = map version_request (possibleHosts w))).
    { destruct Hsdk as [[F ->] | (h & msg & _ & _ & ->)].
      - rewrite app_nil_r, (Hall F). split; [apply no_exec_fetches | reflexivity].
      - split.
        + rewrite no_exec_app, no_exec_fetches. reflexivity.
        + rewrite forallb_app. simpl. rewrite andb_false_r. discriminate. }
    destruct Hbefore as [B1 B2].
    destruct Hcli as [(why & msg & _ & _ & T) | (out & err & _ & T & _)].
    + exists (map version_request (firstn n (possibleHosts w)) ++ sdkpart),
        (map Listen (ports (start_port w config) (S k))).
      split; [|split; assumption].
      rewrite T, <- !app_assoc. reflexivity.
    + exists (map version_request (firstn n (possibleHosts w)) ++ sdkpart),
        (list_probe :: map Listen (ports (start_port w config) (S k))).
      split; [|split; assumption].
      rewrite T, <- !app_assoc. reflexivity.
Qed.

Lemma init_without_http_asks_cli_witness :
  exists before after,
    trace (started silent) = trace boot ++ before ++ version_probe :: after
    /\ forallb (fun e => negb (is_exec e)) before = true
    /\ (forallb (fun e => negb (is_sdk e)) before = true ->
        before = map version_request (possibleHosts silent)).
Proof.
  apply (init_without_http_asks_cli silent 1%nat no_config boot).
  - vm_compute. reflexivity.
  - vm_compute. discriminate.
Defined.

(** X7.  [init] ends in the CLI fallback only when both commands, run in
    this order right after the HTTP attempts, exited with status 0:
    [ollama --version] and then [ollama list]. *)
Theorem cli_fallback_needs_both_commands (w : World) (fuel : nat)
    (config : Config) (p q : Proc) :
  init fuel config w p = (Ok AppDb, q) ->
  mode q = CliFallback ->
  exists before after out err out' err',
    trace q = trace p ++ before ++ [version_probe; list_probe] ++ after
    /\ forallb (fun e => negb (is_exec e)) before = true
    /\ forallb (fun e => negb (is_exec e)) after = true
    /\ exec_reply w (trace p ++ before) (js "ollama --version") version_options
       = ExecDone out err
    /\ exec_reply w (trace p ++ before ++ [version_probe]) (js "ollama list")
         list_options
       = ExecDone out' err'.
Proof.
  intros H M. destruct (mode_cli q M) as [Ho Hc].
  destruct (init_cases w fuel config p q H)
    as (found & n & k & _ & _ & _ & _ & _ & _ & _ & Cases).
  destruct Cases as [(h & models & _ & _ & Ho' & _)
                    | (sdkpart & Hsdk & _ & _ & Hcli)];
    [rewrite Ho in Ho'; discriminate|].
  assert (B : forallb (fun e => negb (is_exec e))
                (map version_request (firstn n (possibleHosts w)) ++ sdkpart)
              = true).
  { rewrite no_exec_app, no_exec_fetches.
    destruct Hsdk as [[_ ->] | (h & msg & _ & _ & ->)]; reflexivity. }
  destruct Hcli as [(why & msg & _ & Hc' & _)
                   | (out & err & V & T & [(o & e & L & _)
                                          | (why & msg & _ & Hc')])];
    try (rewrite Hc in Hc'; discriminate).
  exists (map version_request (firstn n (possibleHosts w)) ++ sdkpart),
    (map Listen (ports (start_port w config) (S k))), out, err, o, e.
  rewrite <- !app_assoc. split; [exact T|]. split; [exact B|].
  split; [apply no_exec_listens|]. split; [exact V | exact L].
Qed.

Lemma cli_fallback_needs_both_commands_witness :
  exists before after out err out' err',
    trace (started (with_cli table))
    = trace boot ++ before ++ [version_probe; list_probe] ++ after
    /\ forallb (fun e => negb (is_exec e)) before = true
    /\ forallb (fun e => negb (is_exec e)) after = true
    /\ exec_reply (with_cli table) (trace boot ++ before)
         (js "ollama --version") version_options
       = ExecDone out err
    /\ exec_reply (with_cli table) (trace boot ++ before ++ [version_probe])
         (js "ollama list") list_options
       = ExecDone out' err'.
Proof.
  apply (cli_fallback_needs_both_commands (with_cli table) 1%nat no_config boot).
  - vm_compute. reflexivity.
  - vm_compute. reflexivity.
Defined.

(** X8.  [init] ends with no backend only through a failure of the CLI:
    either the version command failed (and the list command was not run),
    or the version command exited with status 0 and the list command
    failed.  A working [ollama --version] alone does not give the CLI
    fallback. *)
Theorem unavailable_means_cli_failed (w : World) (fuel : nat)
    (config : Config) (p q : Proc) :
  init fuel config w p = (Ok AppDb, q) ->
  mode q = Unavailable ->
  exists before after,
    forallb (fun e => negb (is_exec e)) before = true
    /\ forallb (fun e => negb (is_exec e)) after = true
    /\ ((exists why msg,
           exec_reply w (trace p ++ before) (js "ollama --version")
             version_options = ExecFailed why msg
           /\ trace q = trace p ++ before ++ [version_probe] ++ after)
        \/ (exists out err why msg,
              exec_reply w (trace p ++ before) (js "ollama --version")
                version_options = ExecDone out err
              /\ exec_reply w (trace p ++ before ++ [version_probe])
                   (js "ollama list") list_options = ExecFailed why msg
              /\ trace q
                 = trace p ++ before ++ [version_probe; list_probe] ++ after)).
Proof.
  intros H M. destruct (mode_down q M) as [Ho Hc].
  destruct (init_cases w fuel config p q H)
    as (found & n & k & _ & _ & _ & _ & _ & _ & _ & Cases).
  destruct Cases as [(h & models & _ & _ & Ho' & _)
                    | (sdkpart & Hsdk & _ & _ & Hcli)];
    [rewrite Ho in Ho'; discriminate|].
  assert (B : forallb (fun e => negb (is_exec e))
                (map version_request (firstn n (possibleHosts w)) ++ sdkpart)
              = true).
  { rewrite no_exec_app, no_exec_fetches.
    destruct Hsdk as [[_ ->] | (h & msg & _ & _ & ->)]; reflexivity. }
  exists (map version_request (firstn n (possibleHosts w)) ++ sdkpart),
    (map Listen (ports (start_port w config) (S k))).
  split; [exact B|]. split; [apply no_exec_listens|].
  rewrite <- !app_assoc.
  destruct Hcli as [(why & msg & V & _ & T)
                   | (out & err & V & T & [(o & e & _ & Hc')
                                          | (why & msg & L & _)])].
  - left. exists why, msg. split; [exact V | exact T].
  - rewrite Hc in Hc'. discriminate.
  - right. exists out, err, why, msg.
    split; [exact V|]. split; [exact L | exact T].
Qed.

Lemma unavailable_means_cli_failed_witness :
  exists before after,
    forallb (fun e => negb (is_exec e)) before = true
    /\ forallb (fun e => negb (is_exec e)) after = true
    /\ ((exists why msg,
           exec_reply silent (trace boot ++ before) (js "ollama --version")
             version_options = ExecFailed why msg
           /\ trace (started silent)
              = trace boot ++ before ++ [version_probe] ++ after)
        \/ (exists out err why msg,
              exec_reply silent (trace boot ++ before) (js "ollama --version")
                version_options = ExecDone out err
              /\ exec_reply silent (trace boot ++ before ++ [version_probe])
                   (js "ollama list") list_options = ExecFailed why msg
              /\ trace (started silent)
                 = trace boot ++ before ++ [version_probe; list_probe]
                   ++ after)).
Proof.
  apply (unavailable_means_cli_failed silent 1%nat no_config boot).
  - vm_compute. reflexivity.
  - vm_compute. reflexivity.
Defined.




Lemma after_sdk_initiated (w : World) (found : option jstring) (p : Proc) :
  initiated (after_sdk w found p) = initiated p.
Proof.
  unfold after_sdk. destruct found as [wh|]; [|reflexivity].
  destruct (sdk_models w (trace p) wh); reflexivity.
Qed.

Lemma after_cli_initiated (w : World) (p : Proc) :
  initiated (after_cli w p) = initiated p.
Proof.
  unfold after_cli. destruct (is_null (ollama p)); [|reflexivity].
  destruct (exec_reply w (trace p) (js "ollama --version") version_options);
    [|reflexivity].
  destruct (exec_reply w (trace p ++ [version_probe]) (js "ollama list")
              list_options); reflexivity.
Qed.

Lemma init_sets_flag (w : World) (fuel : nat) (config : Config) (p : Proc) :
  initiated (snd (init fuel config w p)) = true.
Proof.
  destruct (initiated p) eqn:Hi.
  - rewrite (init_again fuel config w p Hi). exact Hi.
  - destruct (init_run w fuel config p Hi) as (found & n & _ & _ & E).
    rewrite E. clear E.
    match goal with
    | |- context [find_port fuel ?s w ?P] =>
        pose proof (frames_find_port fuel s w P) as F;
        destruct (find_port fuel s w P) as [[c|e|] q]
    end;
      destruct F as (F & _); cbn [fst snd] in *; fields; rewrite F;
      rewrite after_cli_initiated, after_sdk_initiated; unfold checked;
      fields; reflexivity.
Qed.

(** X10.  The flag is set before anything else is done, so whatever became
    of a call of [init] (it returned, or it is still searching for a free
    port), every later call returns [undefined] at once and changes
    nothing: no request, no assignment. *)
Theorem init_blocks_reentry (w w' : World) (fuel fuel' : nat)
    (config config' : Config) (p : Proc) :
  init fuel' config' w' (snd (init fuel config w p))
  = (Ok Undefined, snd (init fuel config w p)).
Proof. apply init_again. apply init_sets_flag. Qed.

(** ** Routes by mode *)

(** X11.  With no backend every route but the status route answers with
    the service-unavailable response, status 503, and asks nothing of
    the outside. *)
Theorem no_backend_every_route_unavailable (w : World) (p : Proc)
    (rq : Request) :
  mode p = Unavailable ->
  rq <> GetStatus ->
  handle rq w p = (Ok service_unavailable, p).
Proof.
  intros M Hrq. destruct (mode_down p M) as [Ho Hc].
  destruct rq; try (now elim Hrq);
    unfold handle, get_models, post_chat, post_generate, post_create,
      delete_model, post_copy, get_model, post_pull, post_push,
      post_embeddings, checkOllamaConnection, bind, read, ret;
    rewrite Ho, Hc; reflexivity.
Qed.

Lemma no_backend_every_route_unavailable_witness :
  handle (PostChat (js "llama3") [] false VUndefined) silent down_proc
  = (Ok service_unavailable, down_proc).
Proof.
  apply (no_backend_every_route_unavailable silent down_proc).
  - reflexivity.
  - discriminate.
Defined.

(** X12.  The status route answers in every mode, with status 200 and
    without asking anything of the outside, and what it reports is the
    state of the process: the overall status names the mode, the HTTP host
    is the active host when there is an SDK client and null otherwise,
    the CLI flag is [useCLI], and the port is the relay's. *)
Theorem status_reports_the_mode (w : World) (p : Proc) :
  exists body,
    handle GetStatus w p = (Ok (Sent 200 body), p)
    /\ get "overall_status" (get "ollama" body)
       = match mode p with
         | NetworkAPI => str "HTTP API"
         | CliFallback => str "CLI Mode"
         | Unavailable => str "Unavailable"
         end
    /\ get "host" (get "http_api" (get "ollama" body))
       = match ollama p with
         | Some _ => VStr (activeOllamaHost p)
         | None => VNull
         end
    /\ get "available" (get "http_api" (get "ollama" body))
       = VBool (http_active p)
    /\ get "available" (get "cli_mode" (get "ollama" body)) = VBool (useCLI p)
    /\ get "port" (get "gun_relay" body) = VNum (port p)
    /\ get "host" (get "gun_relay" body) = VStr (host p).
Proof.
  unfold handle, get_status, bind, read, ret. eexists.
  split; [reflexivity|].
  unfold mode, http_active.
  destruct (ollama p), (useCLI p); repeat split.
Qed.

(** Takes a handler apart down to the answers of the outside. *)
Ltac run_handler :=
  cbv beta iota delta
    [handle get_models post_chat post_generate post_create delete_model
     post_copy get_model post_pull post_push post_embeddings get_status
     checkOllamaConnection http_only completion_failed mode_label sdk
     sdk_stream sdk_list of_answer chatViaCLI generateViaCLI
     getModelsViaCLI execAsync rethrow try_catch bind read request ret
     throw].

(** Reads the variables [Ho : ollama p = _] and [Hc : useCLI p = _] tell,
    and decides every answer of the outside both ways. *)
Ltac settle Ho Hc :=
  repeat first
    [ progress (rewrite ?Ho, ?Hc)
    | progress cbn [is_null negb andb fst snd initiated ollama useCLI
                    activeOllamaHost host port listening trace log_event]
    | match goal with
      | |- context [match ?x with _ => _ end] =>
          lazymatch x with
          | sdk_reply _ _ _ _ => destruct x
          | sdk_parts _ _ _ _ => destruct x
          | sdk_models _ _ _ => destruct x
          | exec_reply _ _ _ _ => destruct x
          | item _ _ => destruct x
          end
      end ].

(** X13.  With the HTTP backend every route but the status route makes
    exactly one call, on the SDK client the process holds, the call that
    belongs to the route (for the model list, [list()]); it starts no
    command, sends no other request and assigns no variable, whether the
    call succeeds or fails. *)
Theorem http_mode_one_sdk_call (w : World) (p : Proc) (h : jstring)
    (rq : Request) (call : SdkCall) :
  ollama p = Some h ->
  sdk_call_of rq = Some call ->
  trace (snd (handle rq w p)) = trace p ++ [Sdk h call]
  /\ same_vars p (snd (handle rq w p)).
Proof.
  intros Ho Hcall. split; [|apply frames_handle].
  destruct rq; simpl in Hcall; try discriminate;
    injection Hcall as <-; run_handler;
    try match goal with s : bool |- _ => destruct s end;
    settle Ho Ho; reflexivity.
Qed.

Lemma http_mode_one_sdk_call_witness :
  trace (snd (handle (DeleteModel (js "llama3"))
                (with_server (js "http://127.0.0.1:11434"))
                (started (with_server (js "http://127.0.0.1:11434")))))
  = trace (started (with_server (js "http://127.0.0.1:11434")))
    ++ [Sdk (js "http://127.0.0.1:11434") (SdkDelete (js "llama3"))].
Proof.
  refine (proj1 (http_mode_one_sdk_call
                   (with_server (js "http://127.0.0.1:11434"))
                   (started (with_server (js "http://127.0.0.1:11434")))
                   (js "http://127.0.0.1:11434") (DeleteModel (js "llama3"))
                   (SdkDelete (js "llama3")) _ eq_refl)).
  vm_compute. reflexivity.
Defined.

(** X14.  With the HTTP backend chat and generate hand the SDK's answer
    through: without streaming the object the call resolved to, status
    200; with streaming the parts in the order the SDK yields them; and
    when the SDK call fails, status 500 with the SDK's message as it is,
    the model name and the mode "HTTP API". *)
Theorem http_chat_generate_relay (w : World) (p : Proc) (h model prompt : jstring)
    (messages : list Message) (options : Value) :
  ollama p = Some h ->
  fst (handle (PostChat model messages false options) w p)
  = Ok (match sdk_reply w (trace p) h (SdkChat model messages false options)
        with
        | Resolved v => Sent 200 v
        | Rejected msg => completion_error msg model "HTTP API"
        end)
  /\ fst (handle (PostChat model messages true options) w p)
     = Ok (match sdk_parts w (trace p) h (SdkChat model messages true options)
           with
           | Resolved parts => Events parts
           | Rejected msg => completion_error msg model "HTTP API"
           end)
  /\ fst (handle (PostGenerate model prompt false options) w p)
     = Ok (match sdk_reply w (trace p) h
                   (SdkGenerate model prompt false options) with
           | Resolved v => Sent 200 v
           | Rejected msg => completion_error msg model "HTTP API"
           end)
  /\ fst (handle (PostGenerate model prompt true options) w p)
     = Ok (match sdk_parts w (trace p) h
                   (SdkGenerate model prompt true options) with
           | Resolved parts => Events parts
           | Rejected msg => completion_error msg model "HTTP API"
           end).
Proof.
  intro Ho. unfold completion_error.
  repeat split; run_handler; settle Ho Ho; reflexivity.
Qed.

Lemma http_chat_generate_relay_witness :
  fst (handle (PostChat (js "llama3") [] false VUndefined)
         (with_server (js "http://127.0.0.1:11434"))
         (started (with_server (js "http://127.0.0.1:11434"))))
  = Ok (Sent 200 (VObj [])).
Proof.
  exact (proj1 (http_chat_generate_relay
                  (with_server (js "http://127.0.0.1:11434"))
                  (started (with_server (js "http://127.0.0.1:11434")))
                  (js "http://127.0.0.1:11434") (js "llama3") [] []
                  VUndefined eq_refl)).
Defined.

(** X15.  Under the CLI fallback chat (with at least one message) and
    generate, not streaming, answer by the outcome of the one command:
    when it exits with status 0, status 200 and the envelope whose text is
    the captured output with the white space at both ends removed; when
    it fails (non-zero exit, the 60 s timeout, more than 1 MiB of output,
    not startable), status 500 with the failure's message behind the
    prefix "CLI Chat Error: " or "CLI Generate Error: ", the model name and
    the mode "CLI". *)
Theorem cli_chat_generate_outcome (w : World) (p : Proc) (model prompt : jstring)
    (earlier : list Message) (m : Message) (options : Value) :
  mode p = CliFallback ->
  fst (handle (PostChat model (earlier ++ [m]) false options) w p)
  = Ok (match exec_reply w (trace p)
                (run_command (escape_prompt (content m)) model) run_options
        with
        | ExecDone out _ => Sent 200 (chat_envelope out)
        | ExecFailed _ msg =>
            completion_error (js "CLI Chat Error: " ++ msg) model "CLI"
        end)
  /\ fst (handle (PostGenerate model prompt false options) w p)
     = Ok (match exec_reply w (trace p)
                   (run_command (escape_prompt prompt) model) run_options
           with
           | ExecDone out _ => Sent 200 (generate_envelope out)
           | ExecFailed _ msg =>
               completion_error (js "CLI Generate Error: " ++ msg) model "CLI"
           end)
  /\ timeout run_options = 60000 /\ maxBuffer run_options = Some 1048576.
Proof.
  intro M. destruct (mode_cli p M) as [Ho Hc].
  split; [|split; [|split; reflexivity]].
  - rewrite (post_chat_cli w p model _ options M), chatViaCLI_run.
    unfold cli_result.
    destruct (exec_reply w (trace p) _ run_options); [reflexivity|].
    unfold completion_failed, mode_label, bind, read, ret.
    cbn [fst ollama useCLI log_event]. rewrite Ho, Hc. reflexivity.
  - rewrite (post_generate_cli w p model _ options M), generateViaCLI_run.
    unfold cli_result.
    destruct (exec_reply w (trace p) _ run_options); [reflexivity|].
    unfold completion_failed, mode_label, bind, read, ret.
    cbn [fst ollama useCLI log_event]. rewrite Ho, Hc. reflexivity.
Qed.

Lemma cli_chat_generate_outcome_witness :
  fst (handle (PostGenerate (js "llama3") (js "hi") false VUndefined)
         (with_cli (js " hello ")) cli_proc)
  = Ok (Sent 200 (VObj [ ("response", str "hello"); ("done", VBool true) ])).
Proof.
  exact (proj1 (proj2 (cli_chat_generate_outcome (with_cli (js " hello "))
                         cli_proc (js "llama3") (js "hi") []
                         {| role := js "user"; content := js "hi" |}
                         VUndefined eq_refl))).
Defined.

(** X16.  Under the CLI fallback the model list is the parsed output of
    the one command [ollama list] (10 s timeout): each descriptor an
    object of the four string fields, in the order of the lines; when the
    command fails the answer has status 500, the failure's message
    behind "CLI List Error: " and the mode "CLI". *)
Theorem cli_model_list_route (w : World) (p : Proc) :
  mode p = CliFallback ->
  handle GetModels w p
  = (Ok (match exec_reply w (trace p) (js "ollama list") list_options with
         | ExecDone out _ =>
             Sent 200 (VArr (map value_of_model (parse_model_list out)))
         | ExecFailed _ msg =>
             Sent 500
               (VObj [ ("error", VStr (js "CLI List Error: " ++ msg));
                       ("hint", str "请检查 Ollama 服务是否正常运行");
                       ("mode", str "CLI") ])
         end), log_event list_probe p)
  /\ timeout list_options = 10000.
Proof.
  intro M. destruct (mode_cli p M) as [Ho Hc]. split; [|reflexivity].
  unfold handle, get_models, checkOllamaConnection, mode_label.
  cbv [bind read try_catch ret].
  repeat (rewrite ?Ho, ?Hc; cbv beta iota delta [is_null negb andb]).
  rewrite getModelsViaCLI_run.
  destruct (exec_reply w (trace p) (js "ollama list") list_options);
    cbn [ollama useCLI log_event]; rewrite ?Ho, ?Hc; reflexivity.
Qed.

Lemma cli_model_list_route_witness :
  fst (handle GetModels (with_cli table) cli_proc)
  = Ok (Sent 200
          (VArr [ VObj [ ("name", str "llama3"); ("modified_at", str "abc123");
                         ("size", str "4.1GB"); ("digest", str "2") ] ])).
Proof.
  exact (f_equal fst
           (proj1 (cli_model_list_route (with_cli table) cli_proc eq_refl))).
Defined.

(** X17.  No handler lets an exception out and every request is answered:
    for a request that does not stream from the SDK (no HTTP client, or
    [stream] false), whatever the mode, the request and the answers of the
    outside, the handler resolves with a response written.  This covers a
    chat with no message and every failure of a command or of the SDK. *)
Theorem every_request_is_answered (w : World) (p : Proc) (rq : Request) :
  streams rq && http_active p = false ->
  exists r, fst (handle rq w p) = Ok r /\ r <> NoReply.
Proof.
  unfold http_active.
  destruct (ollama p) as [h|] eqn:Ho; destruct (useCLI p) eqn:Hc;
    destruct rq; cbn [streams is_null negb andb]; intro Hs;
    rewrite ?andb_true_r, ?andb_false_r in Hs; try subst;
    run_handler;
    try match goal with s : bool |- _ => destruct s; try discriminate end;
    settle Ho Hc; eexists; (split; [reflexivity | discriminate]).
Qed.

Lemma every_request_is_answered_witness :
  exists r,
    fst (handle (PostChat (js "llama3") [] false VUndefined) silent cli_proc)
    = Ok r /\ r <> NoReply.
Proof.
  apply (every_request_is_answered silent cli_proc). reflexivity.
Defined.

(** ** What the parsed model list is made of *)

Lemma spaceless_app (a b : jstring) :
  spaceless (a ++ b) = spaceless a && spaceless b.
Proof. apply forallb_app. Qed.

Lemma split_ws_at_spaceless (b : bool) (f s : jstring) :
  spaceless f = true ->
  Forall (fun x => spaceless x = true) (split_ws_at b f s).
Proof.
  revert b f. induction s as [|c s IH]; intros b f Hf; simpl.
  - constructor; [exact Hf | constructor].
  - destruct (is_space c) eqn:Hc.
    + destruct b; [apply IH; reflexivity|].
      constructor; [exact Hf | apply IH; reflexivity].
    + apply IH. rewrite spaceless_app, Hf. simpl. now rewrite Hc.
Qed.

Lemma part_or_empty_spaceless (parts : list jstring) (i : nat) :
  Forall (fun x => spaceless x = true) parts ->
  spaceless (part_or_empty parts i) = true.
Proof.
  intro H. unfold part_or_empty.
  destruct (nth_error parts i) as [x|] eqn:E; [|reflexivity].
  apply nth_error_In in E. rewrite Forall_forall in H. specialize (H x E).
  destruct x; [reflexivity | exact H].
Qed.

(** X18.  No field of a parsed model descriptor holds white space: the
    name, modified_at, size and digest of every descriptor, whatever the
    command printed, are free of blanks, tabs and line breaks (a field may
    be empty). *)
Theorem parsed_fields_hold_no_space (stdout : jstring) (m : Model) :
  In m (parse_model_list stdout) ->
  spaceless (name m) = true /\ spaceless (modified_at m) = true
  /\ spaceless (size m) = true /\ spaceless (digest m) = true.
Proof.
  unfold parse_model_list. intro H. apply in_map_iff in H as (line & <- & _).
  unfold model_of_line. cbn [name modified_at size digest].
  pose proof (split_ws_at_spaceless false [] line eq_refl) as F.
  fold (split_ws line) in F.
  split; [|repeat split; now apply part_or_empty_spaceless].
  destruct (split_ws line) as [|x xs]; [reflexivity|].
  now inversion F.
Qed.

Lemma parsed_fields_hold_no_space_witness :
  spaceless (js "llama3") = true /\ spaceless (js "abc123") = true
  /\ spaceless (js "4.1GB") = true /\ spaceless (js "2") = true.
Proof.
  apply (parsed_fields_hold_no_space table
           {| name := js "llama3"; modified_at := js "abc123";
              size := js "4.1GB"; digest := js "2" |}).
  vm_compute. left. reflexivity.
Defined.

Lemma trimStart_incl (s : jstring) (x : N) : In x (trimStart s) -> In x s.
Proof.
  induction s as [|c s IH]; simpl; [auto|].
  destruct (is_space c); [intro H; right; now apply IH | auto].
Qed.

Lemma trim_incl (s : jstring) (x : N) : In x (trim s) -> In x s.
Proof.
  unfold trim, trimEnd. intro H. apply in_rev in H.
  apply trimStart_incl in H. apply in_rev in H. now apply trimStart_incl.
Qed.

Lemma split_at_one_line (f s : jstring) :
  forallb (fun c => negb (c =? LF)) s = true -> split_at LF f s = [f ++ s].
Proof.
  revert f. induction s as [|c s IH]; intros f H; simpl.
  - now rewrite app_nil_r.
  - simpl in H. apply andb_prop in H as [Hc Hs].
    destruct (c =? LF); [discriminate|].
    rewrite (IH (f ++ [c]) Hs), <- app_assoc. reflexivity.
Qed.

(** X19.  An output without a line feed, the empty output included, gives
    the empty model list: a lone line is the header. *)
Theorem one_line_output_lists_nothing (stdout : jstring) :
  forallb (fun c => negb (c =? LF)) stdout = true ->
  parse_model_list stdout = [].
Proof.
  intro H. unfold parse_model_list, split_char.
  rewrite split_at_one_line; [reflexivity|].
  apply forallb_forall. intros x Hx. apply trim_incl in Hx.
  rewrite forallb_forall in H. now apply H.
Qed.

Lemma one_line_output_lists_nothing_witness :
  parse_model_list (js "NAME  ID  SIZE  MODIFIED") = [].
Proof.
  apply (one_line_output_lists_nothing (js "NAME  ID  SIZE  MODIFIED")).
  vm_compute. reflexivity.
Defined.

(** ** What the escaping does to a text *)

Lemma escape_prompt_app (a b : jstring) :
  escape_prompt (a ++ b) = escape_prompt a ++ escape_prompt b.
Proof. rewrite !escape_prompt_chars. apply flat_map_app. Qed.

(** X20.  The escaping works piece by piece (the escaped concatenation is
    the concatenation of the escaped pieces), leaves a text without double
    quote and dollar as it is, and never puts a backslash before a
    backslash: a backslash followed by a double quote comes out as two
    backslashes followed by a double quote. *)
Theorem escape_prompt_pieces (a b : jstring) :
  escape_prompt (a ++ b) = escape_prompt a ++ escape_prompt b
  /\ (plain a = true -> escape_prompt a = a)
  /\ escape_prompt (a ++ [BACKSLASH; DQUOTE] ++ b)
     = escape_prompt a ++ [BACKSLASH; BACKSLASH; DQUOTE] ++ escape_prompt b.
Proof.
  split; [apply escape_prompt_app|]. split.
  - rewrite escape_prompt_chars. unfold plain.
    induction a as [|c a IH]; [reflexivity|].
    intro H. simpl in H. apply andb_prop in H as [Hc Ha].
    apply andb_prop in Hc as [Hq Hd].
    change (escape_char c ++ flat_map escape_char a = c :: a).
    rewrite (IH Ha). unfold escape_char.
    destruct (c =? DQUOTE); [discriminate|].
    destruct (c =? DOLLAR); [discriminate|]. reflexivity.
  - rewrite !escape_prompt_app. reflexivity.
Qed.

Lemma escape_prompt_pieces_witness :
  escape_prompt (js "say hello") = js "say hello".
Proof.
  apply (proj1 (proj2 (escape_prompt_pieces (js "say hello") []))).
  vm_compute. reflexivity.
Defined.

(** X21.  In the escaped text every double quote and every dollar stands
    directly behind a backslash. *)
Theorem escaped_quote_follows_backslash (s pre post : jstring) (c : char16) :
  escape_prompt s = pre ++ c :: post ->
  c = DQUOTE \/ c = DOLLAR ->
  exists pre', pre = pre' ++ [BACKSLASH].
Proof.
  rewrite escape_prompt_chars. revert pre.
  induction s as [|x s IH]; intros pre E Hc.
  - destruct pre; discriminate.
  - change (escape_char x ++ flat_map escape_char s = pre ++ c :: post) in E.
    assert (Hnot : c <> BACKSLASH)
      by (destruct Hc as [-> | ->]; discriminate).
    remember (flat_map escape_char s) as rest eqn:R.
    unfold escape_char in E.
    destruct (N.eqb_spec x DQUOTE) as [Hq|Hq];
      [|destruct (N.eqb_spec x DOLLAR) as [Hd|Hd]].
    + destruct pre as [|y [|z pre]]; simpl in E.
      * injection E as E _. now elim Hnot.
      * injection E as E _ _. exists []. now rewrite <- E.
      * injection E as E1 E2 E. destruct (IH pre E Hc) as (pre' & ->).
        exists (y :: z :: pre'). reflexivity.
    + destruct pre as [|y [|z pre]]; simpl in E.
      * injection E as E _. now elim Hnot.
      * injection E as E _ _. exists []. now rewrite <- E.
      * injection E as E1 E2 E. destruct (IH pre E Hc) as (pre' & ->).
        exists (y :: z :: pre'). reflexivity.
    + destruct pre as [|y pre]; simpl in E.
      * injection E as E _. rewrite E in *. destruct Hc; contradiction.
      * injection E as E1 E. destruct (IH pre E Hc) as (pre' & ->).
        exists (y :: pre'). reflexivity.
Qed.

Lemma escaped_quote_follows_backslash_witness :
  exists pre', js "a" ++ [BACKSLASH] = pre' ++ [BACKSLASH].
Proof.
  apply (escaped_quote_follows_backslash (js "a$b") (js "a" ++ [BACKSLASH])
           (js "b") DOLLAR).
  - vm_compute. reflexivity.
  - right. reflexivity.
Defined.

(** ** A machine without a LAN address *)

(** X22.  When no interface entry is IPv4 and not internal, the candidate
    built from the LAN address is http://0.0.0.0:11434, the same URL as the
    literal that follows it, so the candidate list holds it twice and the
    prober checks it twice. *)
Theorem no_lan_address_repeats_wildcard (w : World) :
  (forall i, In i (all_interfaces w) -> is_external_v4 i = false) ->
  lan_host w = wildcard_host /\ ~ NoDup (possibleHosts w).
Proof.
  intro H.
  assert (E : lan_host w = wildcard_host).
  { unfold lan_host. rewrite (getLocalIPAddress_none w H). reflexivity. }
  split; [exact E|].
  rewrite possibleHosts_groups, E. intro N.
  apply NoDup_app_remove_l in N. apply NoDup_app_remove_l in N.
  inversion N as [|x l Hnot _]. apply Hnot. now left.
Qed.

Lemma no_lan_address_repeats_wildcard_witness :
  lan_host offline = wildcard_host /\ ~ NoDup (possibleHosts offline).
Proof.
  apply (no_lan_address_repeats_wildcard offline).
  intros i Hi. vm_compute in Hi.
  destruct Hi as [<- | [<- | []]]; reflexivity.
Defined.

(** ** A line that begins with white space *)

Lemma split_ws_run_trimStart (rest : jstring) :
  split_ws_at true [] rest = split_ws (trimStart rest).
Proof.
  induction rest as [|c rest IH]; [reflexivity|].
  simpl. destruct (is_space c) eqn:Hc; [exact IH|].
  unfold split_ws. simpl. now rewrite Hc.
Qed.

(** X23.  A line that begins with white space is parsed one field off: its
    name is empty, and its modified_at, size and digest are the name,
    modified_at and size the rest of the line would give. *)
Theorem indented_line_shifts_fields (c : char16) (rest : jstring) :
  is_space c = true ->
  name (model_of_line (c :: rest)) = []
  /\ modified_at (model_of_line (c :: rest))
     = name (model_of_line (trimStart rest))
  /\ size (model_of_line (c :: rest))
     = modified_at (model_of_line (trimStart rest))
  /\ digest (model_of_line (c :: rest))
     = size (model_of_line (trimStart rest)).
Proof.
  intro Hc. unfold model_of_line. cbn [name modified_at size digest].
  assert (E : split_ws (c :: rest) = [] :: split_ws (trimStart rest)).
  { unfold split_ws at 1. simpl. rewrite Hc. now rewrite split_ws_run_trimStart. }
  rewrite E.
  destruct (split_ws_at_cons false [] (trimStart rest)) as (x & xs & F).
  fold (split_ws (trimStart rest)) in F. rewrite F.
  split; [reflexivity|]. split; [|split; reflexivity].
  unfold part_or_empty. simpl. destruct x; reflexivity.
Qed.

Lemma indented_line_shifts_fields_witness :
  name (model_of_line (js " llama3 abc 4GB")) = []
  /\ modified_at (model_of_line (js " llama3 abc 4GB")) = js "llama3"
  /\ size (model_of_line (js " llama3 abc 4GB")) = js "abc"
  /\ digest (model_of_line (js " llama3 abc 4GB")) = js "4GB".
Proof.
  exact (indented_line_shifts_fields 32 (js "llama3 abc 4GB") eq_refl).
Defined.
